(** * chinta: the daemon process and the HTTP service shell

    A shallow embedding of [chinta/src/daemon.cpp] (the process that
    detaches itself and logs a heartbeat) and of the service contract that
    [lib/http/include/service/server.hpp] declares.

    The daemon is a sequence of operating-system calls.  Each process is a
    record holding the statement [main] is at, the calls made so far, the
    signal dispositions installed with [signal], the exit status once
    [exit] has been called, and the seconds spent in [sleep].  [main] is a
    step function over that record, one step per statement; a signal
    delivery runs the installed handler on it.  [step] has the transitions
    of the program's own code; [kstep] adds what the kernel does to the
    process: the default action of a signal that has no handler, and the
    signals that arrive while [main] is inside [sleep] or [syslog]. *)

From Stdlib Require Import ZArith List Lia.
From stdpp Require Import gmap strings list fin_maps.
Import ListNotations.

Local Open Scope string_scope.
Local Open Scope list_scope.
Local Open Scope Z_scope.

Module Daemon.

(** ** Constants of the system headers (Linux values) *)

(** <stdlib.h> *)
Definition EXIT_SUCCESS : Z := 0.
Definition EXIT_FAILURE : Z := 1.

(** <unistd.h> *)
Definition STDIN_FILENO : Z := 0.
Definition STDOUT_FILENO : Z := 1.
Definition STDERR_FILENO : Z := 2.

(** <signal.h> *)
Definition SIGINT : Z := 2.
Definition SIGTERM : Z := 15.

(** <syslog.h> *)
Definition LOG_INFO : Z := 6.
Definition LOG_PID : Z := 1.
Definition LOG_NDELAY : Z := 8.
Definition LOG_DAEMON : Z := 24.

(** ** Calls a process makes *)

(** The functions of this program that can be installed as a signal
    handler; there is one. *)
Inductive sighandler : Type :=
| Hsignal_handler.

Inductive event : Type :=
| EFork
| ESetsid
| EChdir (path : string)
| EClose (fd : Z)
| EOpenlog (ident : string) (logopt facility : Z)
| ESyslog (priority : Z) (format : string) (args : list Z)
| ESignal (signum : Z) (h : sighandler)
| ESleep (seconds : Z)
| ECloselog
| EExit (status : Z).

(** The statements of [main], named by their line in daemon.cpp. *)
Inductive pc : Type :=
| L17_fork
| L31_setsid
| L36_chdir
| L41_close_stdin
| L42_close_stdout
| L43_close_stderr
| L46_openlog
| L47_syslog_started
| L50_signal_SIGTERM
| L51_signal_SIGINT
| L55_syslog_running
| L57_sleep
| L60_closelog
| L61_return.

Record proc : Type := mkProc {
  at_pc : pc;
  trace : list event;
  dispositions : gmap Z sighandler;
  exit_status : option Z;
  clock : Z
}.

(** What the operating system answers to the three calls whose result
    [main] tests.  [fork_ret] is the value [fork] returns in the process
    that is modelled: negative on failure, the child's pid in the original
    process, [0] in the child. *)
Record os_results : Type := mkOs {
  fork_ret : Z;
  setsid_ret : Z;
  chdir_ret : Z
}.

Definition emit (e : event) (s : proc) : proc :=
  mkProc (at_pc s) (trace s ++ [e]) (dispositions s) (exit_status s) (clock s).

Definition goto (l : pc) (s : proc) : proc :=
  mkProc l (trace s) (dispositions s) (exit_status s) (clock s).

(** [exit(status)]: the call is made and the process is over. *)
Definition exit (status : Z) (s : proc) : proc :=
  mkProc (at_pc s) (trace s ++ [EExit status]) (dispositions s) (Some status) (clock s).

(** [signal(signum, h)] replaces the disposition of [signum]. *)
Definition signal (signum : Z) (h : sighandler) (s : proc) : proc :=
  mkProc (at_pc s) (trace s ++ [ESignal signum h])
         (<[signum := h]> (dispositions s)) (exit_status s) (clock s).

(** [sleep(seconds)] returns after that many seconds. *)
Definition sleep (seconds : Z) (s : proc) : proc :=
  mkProc (at_pc s) (trace s ++ [ESleep seconds]) (dispositions s) (exit_status s)
         (clock s + seconds).

(** ** daemon.cpp, lines 7-13 *)
Definition signal_handler (signum : Z) (s : proc) : proc :=
  if (signum =? SIGTERM) || (signum =? SIGINT) then
    exit 0
      (emit ECloselog
         (emit (ESyslog LOG_INFO "Daemon received signal %d, exiting." [signum]) s))
  else s.

Definition run_handler (h : sighandler) (signum : Z) (s : proc) : proc :=
  match h with
  | Hsignal_handler => signal_handler signum s
  end.

(** ** daemon.cpp, lines 15-62: one statement of [main] *)
Definition main_step (os : os_results) (s : proc) : proc :=
  match at_pc s with
  | L17_fork =>
      let s1 := emit EFork s in
      if fork_ret os <? 0 then exit EXIT_FAILURE s1
      else if fork_ret os >? 0 then exit EXIT_SUCCESS s1
      else goto L31_setsid s1
  | L31_setsid =>
      let s1 := emit ESetsid s in
      if setsid_ret os <? 0 then exit EXIT_FAILURE s1
      else goto L36_chdir s1
  | L36_chdir =>
      let s1 := emit (EChdir "/") s in
      if chdir_ret os <? 0 then exit EXIT_FAILURE s1
      else goto L41_close_stdin s1
  | L41_close_stdin => goto L42_close_stdout (emit (EClose STDIN_FILENO) s)
  | L42_close_stdout => goto L43_close_stderr (emit (EClose STDOUT_FILENO) s)
  | L43_close_stderr => goto L46_openlog (emit (EClose STDERR_FILENO) s)
  | L46_openlog =>
      goto L47_syslog_started
        (emit (EOpenlog "my_daemon" (Z.lor LOG_PID LOG_NDELAY) LOG_DAEMON) s)
  | L47_syslog_started =>
      goto L50_signal_SIGTERM (emit (ESyslog LOG_INFO "Daemon started." []) s)
  | L50_signal_SIGTERM => goto L51_signal_SIGINT (signal SIGTERM Hsignal_handler s)
  | L51_signal_SIGINT => goto L55_syslog_running (signal SIGINT Hsignal_handler s)
  | L55_syslog_running =>
      goto L57_sleep (emit (ESyslog LOG_INFO "Daemon is running..." []) s)
  | L57_sleep => goto L55_syslog_running (sleep 5 s)
  | L60_closelog => goto L61_return (emit ECloselog s)
  | L61_return => exit 0 s
  end.

(** The process as the operating system starts it. *)
Definition at_start : proc := mkProc L17_fork [] ∅ None 0.

(** At most [n] statements of [main], with no signal delivered. *)
Fixpoint run (os : os_results) (n : nat) (s : proc) : proc :=
  match n with
  | O => s
  | S n' =>
      match exit_status s with
      | Some _ => s
      | None => run os n' (main_step os s)
      end
  end.

(** ** Executions with signals *)

Inductive label : Type :=
| Lmain
| Ldeliver (signum : Z).

(** The transitions that the code of the program makes: a running process
    either executes the next statement of [main], or a signal whose
    disposition is a handler of this program is delivered between two
    statements and the handler runs.  What the kernel does besides (default
    actions, signals arriving inside a call) is in [kstep] below. *)
Inductive step (os : os_results) : proc -> label -> proc -> Prop :=
| step_main s :
    exit_status s = None ->
    step os s Lmain (main_step os s)
| step_deliver s signum h :
    exit_status s = None ->
    dispositions s !! signum = Some h ->
    step os s (Ldeliver signum) (run_handler h signum s).

Inductive reachable (os : os_results) : proc -> Prop :=
| reach_start : reachable os at_start
| reach_step s l s' : reachable os s -> step os s l s' -> reachable os s'.

(** The process states of the specification, read off a process.
    [Detached] is said here of the service loop only (lines 55 and 57);
    [daemonized] below covers the process from line 46 on. *)
Inductive ProcessState : Type :=
| Foreground
| Detached
| Terminating.

Definition in_loop (l : pc) : bool :=
  match l with
  | L55_syslog_running | L57_sleep => true
  | _ => false
  end.

Definition process_state (s : proc) : ProcessState :=
  match exit_status s with
  | Some _ => Terminating
  | None => if in_loop (at_pc s) then Detached else Foreground
  end.

(** The calls of the transition from Foreground to Detached. *)
Definition daemonize_calls : list event :=
  [EFork; ESetsid; EChdir "/"; EClose 0; EClose 1; EClose 2].

(** One cycle of the service loop. *)
Definition heartbeat_cycle : list event :=
  [ESyslog LOG_INFO "Daemon is running..." []; ESleep 5].

Fixpoint cycles (k : nat) : list event :=
  match k with
  | O => []
  | S k' => heartbeat_cycle ++ cycles k'
  end.

(** The calls the handler makes when it shuts the process down. *)
Definition shutdown_calls (signum : Z) : list event :=
  [ESyslog LOG_INFO "Daemon received signal %d, exiting." [signum]; ECloselog; EExit 0].

(** The calls the handler itself makes when it runs on [s]. *)
Definition handler_calls (signum : Z) (s : proc) : list event :=
  drop (length (trace s)) (trace (signal_handler signum s)).

(** A handler that leaves the shutdown to the code it interrupts: it does
    not end the process and does not close the log. *)
Definition defers_shutdown (signum : Z) (s : proc) : Prop :=
  exit_status (signal_handler signum s) = exit_status s /\
  ~ In ECloselog (handler_calls signum s).

(** The status [main] ends with when no signal arrives (20 statements are
    enough for every failure of the daemonization). *)
Definition final_status (os : os_results) : option Z :=
  exit_status (run os 20 at_start).

(** Some execution suspends for an interval other than 5 seconds. *)
Definition interval_configurable : Prop :=
  exists os s d, reachable os s /\ In (ESleep d) (trace s) /\ d <> 5.

(** ** Invariants of the executions *)

(** Facts that hold of every reachable process: [main] is never at the
    statements behind the loop, and inside the loop both handlers are
    installed. *)
Definition loop_inv (s : proc) : Prop :=
  at_pc s <> L60_closelog /\
  at_pc s <> L61_return /\
  (at_pc s = L51_signal_SIGINT ->
     dispositions s !! SIGTERM = Some Hsignal_handler) /\
  (in_loop (at_pc s) = true ->
     dispositions s !! SIGTERM = Some Hsignal_handler /\
     dispositions s !! SIGINT = Some Hsignal_handler).

(** How many of the daemonization calls have been made when [main] is at
    a statement of the daemonization. *)
Definition calls_before (l : pc) : option nat :=
  match l with
  | L17_fork => Some 0%nat
  | L31_setsid => Some 1%nat
  | L36_chdir => Some 2%nat
  | L41_close_stdin => Some 3%nat
  | L42_close_stdout => Some 4%nat
  | L43_close_stderr => Some 5%nat
  | L46_openlog => Some 6%nat
  | _ => None
  end.

(** In the child, when every call succeeds: the calls made so far are an
    initial part of [daemonize_calls] while daemonizing, and begin with
    all of them afterwards. *)
Definition daemonizing_inv (s : proc) : Prop :=
  match calls_before (at_pc s) with
  | Some k =>
      trace s = take k daemonize_calls /\ dispositions s = ∅ /\ exit_status s = None
  | None => exists es, trace s = daemonize_calls ++ es
  end.

(** Every [sleep] so far was for 5 seconds. *)
Definition sleeps_5 (s : proc) : Prop :=
  forall d, In (ESleep d) (trace s) -> d = 5.

(** Sample operating-system answers. *)
Definition os_child : os_results := mkOs 0 0 0.
Definition os_parent : os_results := mkOs 4242 0 0.
Definition os_fork_fails : os_results := mkOs (-1) 0 0.
Definition os_setsid_fails : os_results := mkOs 0 (-1) 0.
Definition os_chdir_fails : os_results := mkOs 0 0 (-1).

(** The child once its handlers are installed, about to log a heartbeat. *)
Definition detached_example : proc := run os_child 10 at_start.

(** ** The shape of every execution *)

(** All the calls of [main] before its loop, in order (lines 17 to 51). *)
Definition startup_calls : list event :=
  [EFork; ESetsid; EChdir "/";
   EClose STDIN_FILENO; EClose STDOUT_FILENO; EClose STDERR_FILENO;
   EOpenlog "my_daemon" (Z.lor LOG_PID LOG_NDELAY) LOG_DAEMON;
   ESyslog LOG_INFO "Daemon started." [];
   ESignal SIGTERM Hsignal_handler; ESignal SIGINT Hsignal_handler].

(** The number of statements of [main] before [l], up to the loop. *)
Definition stmt_index (l : pc) : nat :=
  match l with
  | L17_fork => 0
  | L31_setsid => 1
  | L36_chdir => 2
  | L41_close_stdin => 3
  | L42_close_stdout => 4
  | L43_close_stderr => 5
  | L46_openlog => 6
  | L47_syslog_started => 7
  | L50_signal_SIGTERM => 8
  | L51_signal_SIGINT => 9
  | L55_syslog_running | L57_sleep | L60_closelog | L61_return => 10
  end.

(** The heartbeat already logged in the cycle [main] is in the middle of. *)
Definition pending (l : pc) : list event :=
  match l with
  | L57_sleep => [ESyslog LOG_INFO "Daemon is running..." []]
  | _ => []
  end.

(** The calls [main] has made when it is about to execute [l], having
    gone round the loop [k] times. *)
Definition expected (l : pc) (k : nat) : list event :=
  if in_loop l then startup_calls ++ cycles k ++ pending l
  else take (stmt_index l) startup_calls.

(** The handlers installed when [main] is about to execute [l]. *)
Definition disp_at (l : pc) : gmap Z sighandler :=
  match l with
  | L51_signal_SIGINT => <[SIGTERM := Hsignal_handler]> ∅
  | L55_syslog_running | L57_sleep | L60_closelog | L61_return =>
      <[SIGINT := Hsignal_handler]> (<[SIGTERM := Hsignal_handler]> ∅)
  | _ => ∅
  end.
Arguments disp_at : simpl never.

(** The tests of [main] that were passed when it is about to execute [l];
    the statements behind the loop are never reached. *)
Definition passed (os : os_results) (l : pc) : Prop :=
  match l with
  | L17_fork => True
  | L31_setsid => fork_ret os = 0
  | L36_chdir => fork_ret os = 0 /\ 0 <= setsid_ret os
  | L60_closelog | L61_return => False
  | _ => fork_ret os = 0 /\ 0 <= setsid_ret os /\ 0 <= chdir_ret os
  end.

(** How a process that stands at [l] can have ended: not at all; in
    [main], by the exit after [fork], [setsid] or [chdir]; or in the
    handler of a signal that has it installed there. *)
Inductive ending (os : os_results) (l : pc) : option Z -> list event -> Prop :=
| end_running :
    ending os l None []
| end_fork_failed :
    l = L17_fork -> fork_ret os < 0 ->
    ending os l (Some EXIT_FAILURE) [EFork; EExit EXIT_FAILURE]
| end_original :
    l = L17_fork -> 0 < fork_ret os ->
    ending os l (Some EXIT_SUCCESS) [EFork; EExit EXIT_SUCCESS]
| end_setsid_failed :
    l = L31_setsid -> setsid_ret os < 0 ->
    ending os l (Some EXIT_FAILURE) [ESetsid; EExit EXIT_FAILURE]
| end_chdir_failed :
    l = L36_chdir -> chdir_ret os < 0 ->
    ending os l (Some EXIT_FAILURE) [EChdir "/"; EExit EXIT_FAILURE]
| end_signal signum :
    disp_at l !! signum = Some Hsignal_handler ->
    ending os l (Some 0) (shutdown_calls signum).

(** What every process of an execution looks like. *)
Definition shape (os : os_results) (s : proc) : Prop :=
  exists (k : nat) (es : list event),
    trace s = expected (at_pc s) k ++ es /\
    ending os (at_pc s) (exit_status s) es /\
    clock s = 5 * Z.of_nat k /\
    (in_loop (at_pc s) = false -> k = 0%nat) /\
    dispositions s = disp_at (at_pc s) /\
    passed os (at_pc s).

(** The number of heartbeat records among some calls. *)
Fixpoint heartbeats (t : list event) : nat :=
  match t with
  | [] => 0
  | ESyslog _ format _ :: t' =>
      if String.eqb format "Daemon is running..." then S (heartbeats t')
      else heartbeats t'
  | _ :: t' => heartbeats t'
  end.





(** The child between its two [signal] calls. *)
Definition between_signals : proc := run os_child 9 at_start.

(** ** The process under the kernel

    [step] has the transitions that the code of the program makes, one
    whole statement or one whole handler run at a time.  The kernel does
    more to the process: a signal with no handler installed gets its
    default action, and a signal can arrive while [main] is inside a call.
    Two calls of [main] matter for that: [sleep], which a signal cuts
    short, and [syslog], which is not safe to call again from a handler
    while the interrupted call is under way. *)

(** <signal.h> *)
Definition SIGHUP : Z := 1.
Definition SIGKILL : Z := 9.
Definition SIGCHLD : Z := 17.
Definition SIGCONT : Z := 18.
Definition SIGSTOP : Z := 19.
Definition SIGTSTP : Z := 20.
Definition SIGTTIN : Z := 21.
Definition SIGTTOU : Z := 22.
Definition SIGURG : Z := 23.
Definition SIGWINCH : Z := 28.

Inductive action : Type :=
| Terminate
| Ignore
| Stop
| Continue.

(** The default action of signal(7) for the signals 1 to 64; a number
    that is no signal does nothing. *)
Definition default_action (signum : Z) : action :=
  if (signum <? 1) || (64 <? signum) then Ignore
  else if (signum =? SIGCHLD) || (signum =? SIGURG) || (signum =? SIGWINCH) then Ignore
  else if signum =? SIGCONT then Continue
  else if (signum =? SIGSTOP) || (signum =? SIGTSTP) || (signum =? SIGTTIN)
          || (signum =? SIGTTOU) then Stop
  else Terminate.

(** What became of the process other than by its own [exit]: the kernel
    ended it on a signal, or it waits for ever inside a call. *)
Inductive fate : Type :=
| Alive
| Killed (signum : Z)
| Hung.

Record kproc : Type := mkK {
  user : proc;
  fate_of : fate
}.

(** A signal with no handler: only an action that terminates changes the
    process (a stopped process is not over, and is not modelled). *)
Definition by_default (signum : Z) (before after : proc) : kproc :=
  match default_action signum with
  | Terminate => mkK after (Killed signum)
  | Ignore | Stop | Continue => mkK before Alive
  end.

(** A signal delivered between two statements of [main]. *)
Definition deliver (signum : Z) (p : proc) : kproc :=
  match dispositions p !! signum with
  | Some h => mkK (run_handler h signum p) Alive
  | None => by_default signum p p
  end.

(** [main] inside [sleep(5)] (line 57) when [elapsed] seconds of it have
    passed. *)
Definition sleeping (elapsed : Z) (p : proc) : proc :=
  mkProc (at_pc p) (trace p ++ [ESleep 5]) (dispositions p) (exit_status p)
         (clock p + elapsed).

(** A signal delivered then.  If its handler returns, [sleep] returns
    early and [main] goes on with the next cycle. *)
Definition deliver_in_sleep (signum elapsed : Z) (p : proc) : kproc :=
  match dispositions p !! signum with
  | Some h =>
      let p' := run_handler h signum (sleeping elapsed p) in
      match exit_status p' with
      | Some _ => mkK p' Alive
      | None => mkK (goto L55_syslog_running p') Alive
      end
  | None => by_default signum p (sleeping elapsed p)
  end.

(** The record [main] is writing when it is inside [syslog] (lines 47
    and 55). *)
Definition syslog_record (l : pc) : option event :=
  match l with
  | L47_syslog_started => Some (ESyslog LOG_INFO "Daemon started." [])
  | L55_syslog_running => Some (ESyslog LOG_INFO "Daemon is running..." [])
  | _ => None
  end.

(** The handler entered while [main] holds the lock of [syslog]: for
    [SIGTERM] and [SIGINT] its first statement (line 9) is a [syslog] that
    waits for that lock, which [main] cannot release before the handler
    returns; for another signal it returns at once. *)
Definition handler_in_syslog (h : sighandler) (signum : Z) (before inside : proc)
  : kproc :=
  match h with
  | Hsignal_handler =>
      if (signum =? SIGTERM) || (signum =? SIGINT) then mkK inside Hung
      else mkK before Alive
  end.

(** A signal delivered while [main] is inside [syslog]. *)
Definition deliver_in_syslog (signum : Z) (p : proc) : option kproc :=
  match syslog_record (at_pc p) with
  | None => None
  | Some e =>
      Some match dispositions p !! signum with
           | Some h => handler_in_syslog h signum p (emit e p)
           | None => by_default signum p (emit e p)
           end
  end.

Inductive klabel : Type :=
| Kmain
| Kdeliver (signum : Z)
| Kdeliver_in_sleep (signum elapsed : Z)
| Kdeliver_in_syslog (signum : Z).

Inductive kstep (os : os_results) : kproc -> klabel -> kproc -> Prop :=
| kstep_main p :
    exit_status p = None ->
    kstep os (mkK p Alive) Kmain (mkK (main_step os p) Alive)
| kstep_deliver p signum :
    exit_status p = None ->
    kstep os (mkK p Alive) (Kdeliver signum) (deliver signum p)
| kstep_in_sleep p signum elapsed :
    exit_status p = None ->
    at_pc p = L57_sleep ->
    0 <= elapsed <= 5 ->
    kstep os (mkK p Alive) (Kdeliver_in_sleep signum elapsed)
          (deliver_in_sleep signum elapsed p)
| kstep_in_syslog p signum kp :
    exit_status p = None ->
    deliver_in_syslog signum p = Some kp ->
    kstep os (mkK p Alive) (Kdeliver_in_syslog signum) kp.

Inductive kreachable (os : os_results) : kproc -> Prop :=
| kreach_start : kreachable os (mkK at_start Alive)
| kreach_step ks l ks' : kreachable os ks -> kstep os ks l ks' -> kreachable os ks'.

(** The process runs: it has not exited, was not killed and does not
    hang. *)
Definition running (ks : kproc) : Prop :=
  fate_of ks = Alive /\ exit_status (user ks) = None.

(** The daemonization is done: [main] is at line 46 or later.  This is
    where the specification has the process Detached; [process_state]
    above says Detached only of the service loop. *)
Definition daemonized (l : pc) : bool := (6 <=? stmt_index l)%nat.

(** A Detached process is never ended by a signal: the reading of "can
    terminate only through the signal handler's exit call" that the
    kernel's default actions are measured against. *)
Definition ends_only_by_exit (os : os_results) : Prop :=
  forall p l ks' signum,
    kreachable os (mkK p Alive) -> process_state p = Detached ->
    kstep os (mkK p Alive) l ks' -> fate_of ks' <> Killed signum.

(** How a process under the kernel that stands at [l] can have ended: as
    in [ending]; by the handler entered inside [sleep]; killed between two
    statements, inside [sleep] or inside [syslog]; or hung in the handler
    entered inside [syslog].  The last number is the part of the cut-short
    [sleep] that had passed. *)
Inductive kending (os : os_results) (l : pc)
  : option Z -> fate -> list event -> Z -> Prop :=
| kend_atomic st es :
    ending os l st es ->
    kending os l st Alive es 0
| kend_exit_in_sleep signum elapsed :
    l = L57_sleep -> signum = SIGTERM \/ signum = SIGINT ->
    0 <= elapsed <= 5 ->
    kending os l (Some 0) Alive (ESleep 5 :: shutdown_calls signum) elapsed
| kend_killed signum :
    disp_at l !! signum = None -> default_action signum = Terminate ->
    kending os l None (Killed signum) [] 0
| kend_killed_in_sleep signum elapsed :
    l = L57_sleep ->
    disp_at l !! signum = None -> default_action signum = Terminate ->
    0 <= elapsed <= 5 ->
    kending os l None (Killed signum) [ESleep 5] elapsed
| kend_killed_in_syslog signum e :
    syslog_record l = Some e ->
    disp_at l !! signum = None -> default_action signum = Terminate ->
    kending os l None (Killed signum) [e] 0
| kend_hung signum e :
    syslog_record l = Some e ->
    disp_at l !! signum = Some Hsignal_handler ->
    signum = SIGTERM \/ signum = SIGINT ->
    kending os l None Hung [e] 0.

(** What every process of an execution under the kernel looks like. *)
Definition kshape (os : os_results) (ks : kproc) : Prop :=
  exists (k : nat) (es : list event) (elapsed : Z),
    trace (user ks) = expected (at_pc (user ks)) k ++ es /\
    kending os (at_pc (user ks)) (exit_status (user ks)) (fate_of ks) es elapsed /\
    clock (user ks) = 5 * Z.of_nat k + elapsed /\
    (in_loop (at_pc (user ks)) = false -> k = 0%nat) /\
    dispositions (user ks) = disp_at (at_pc (user ks)) /\
    passed os (at_pc (user ks)).

(** The child with the log open and no handler installed yet, about to
    call [signal(SIGTERM, signal_handler)] (line 50). *)
Definition before_signals : proc := run os_child 8 at_start.

(** The daemon ended by [SIGTERM] one second into its first [sleep]. *)
Definition interrupted_example : kproc :=
  deliver_in_sleep SIGTERM 1 (run os_child 11 at_start).

End Daemon.

(** ** The HTTP service shell

    server.hpp declares the class [httpservice::HttpServer]: a constructor
    taking the bind address and the port as strings, [start], [stop], the
    pure virtual hook [setup_routes] and the protected [add_route].  The
    bodies of these members are not among the sources, so their behaviour
    is taken from the specification of the RoutableService. *)
Module httpservice.

Inductive error : Type :=
| ConfigurationError
| LifecycleError
| BindError.

Inductive result (A : Type) : Type :=
| Ok (a : A)
| Err (e : error).
Arguments Ok {A} a.
Arguments Err {A} e.

(** What a call that returns nothing did. *)
Inductive outcome : Type :=
| Done
| Failed (e : error).

Inductive lifecycle : Type :=
| Setup
| Serving
| Stopped.

(** What registering a key that is already registered does.  The
    specification leaves the choice open: "registering the same (path,
    method) twice must either replace the prior handler or be rejected as
    a configuration error (policy choice)". *)
Inductive duplicate_policy : Type :=
| Replace
| Reject.

Section Service.

(** The handler callbacks and the listener of the external HTTP library,
    the two well-formedness tests the specification names without
    defining them (the valid port range and the recognised verbs), and the
    policy for a key registered twice, which it leaves open. *)
Context {Handler ListenerHandle : Type}.
Variable port_in_range : string -> bool.
Variable recognized_method : string -> bool.
Variable on_duplicate : duplicate_policy.
Variable open_endpoint : string -> string -> option ListenerHandle.

(** Modelled from the spec: the data members of the service, of which
    server.hpp shows only [listener_].  The registry maps a (path, method)
    key to its handler (section 3); the listener handle exists from start
    to stop; [phase] records whether [start] has begun serving. *)
Record HttpServer : Type := mkServer {
  address : string;
  port : string;
  registry : gmap (string * string) Handler;
  listener_ : option ListenerHandle;
  phase : lifecycle
}.

Record route : Type := mkRoute {
  route_path : string;
  route_method : string;
  route_handler : Handler
}.

(** Modelled from the spec: the body of the constructor
    [HttpServer::HttpServer] is missing.  "validates the two parameters are
    well-formed (non-empty address, port in the valid range); fails with a
    ConfigurationError otherwise.  Does not yet bind a socket." *)
Definition construct (addr prt : string) : result HttpServer :=
  if bool_decide (addr = "") || negb (port_in_range prt)
  then Err ConfigurationError
  else Ok (mkServer addr prt ∅ None Setup).

(** Modelled from the spec: the body of [HttpServer::add_route] is
    missing.  "adds an entry to the RouteRegistry.  Must only be called
    before start(); calling after start() fails with a LifecycleError";
    "path must be non-empty and method one of the recognized HTTP verbs;
    violating either fails with ConfigurationError".  A failed call leaves
    the service as it was ("operation rejected, service continues
    running").  A key that is registered already is replaced or "rejected
    as a configuration error", as [on_duplicate] says. *)
Definition add_route (path method : string) (h : Handler) (srv : HttpServer)
  : HttpServer * outcome :=
  match phase srv with
  | Setup =>
      if bool_decide (path = "") || negb (recognized_method method)
      then (srv, Failed ConfigurationError)
      else
        match registry srv !! (path, method), on_duplicate with
        | Some _, Reject => (srv, Failed ConfigurationError)
        | _, _ =>
            (mkServer (address srv) (port srv)
                      (<[(path, method) := h]> (registry srv))
                      (listener_ srv) (phase srv), Done)
        end
  | Serving | Stopped => (srv, Failed LifecycleError)
  end.

(** Modelled from the spec: the hook [setup_routes] is pure virtual and
    no subclass is among the sources.  "the subclass populates its registry
    inside this hook": the hook is the list of registrations it makes, in
    order; the first one that fails ends it. *)
Fixpoint setup_routes (rs : list route) (srv : HttpServer) : HttpServer * outcome :=
  match rs with
  | [] => (srv, Done)
  | r :: rs' =>
      match add_route (route_path r) (route_method r) (route_handler r) srv with
      | (srv', Done) => setup_routes rs' srv'
      | (srv', Failed e) => (srv', Failed e)
      end
  end.

(** Modelled from the spec: the body of [HttpServer::start] is missing.
    "invokes the subclass-provided route-setup hook, then binds and opens
    the listening endpoint using the external listener capability, then
    blocks"; "Fails with BindError if the endpoint cannot be opened".  The
    result is the service while [start] blocks serving.  The specification
    says nothing of a [start] on a service that was started before: the
    model gives [None] there. *)
Definition start (rs : list route) (srv : HttpServer) : option (HttpServer * outcome) :=
  match phase srv with
  | Setup =>
      Some
        match setup_routes rs srv with
        | (srv1, Failed e) => (srv1, Failed e)
        | (srv1, Done) =>
            match open_endpoint (address srv1) (port srv1) with
            | Some h =>
                (mkServer (address srv1) (port srv1) (registry srv1) (Some h) Serving,
                 Done)
            | None => (srv1, Failed BindError)
            end
        end
  | Serving | Stopped => None
  end.

(** Modelled from the spec: the body of [HttpServer::stop] is missing.
    "requests the listening endpoint close and the blocking call in start()
    to return.  Idempotent: calling it multiple times, or before start(),
    has no additional effect beyond the first."  The handle is "destroyed
    on stop". *)
Definition stop (srv : HttpServer) : HttpServer :=
  match phase srv with
  | Serving => mkServer (address srv) (port srv) (registry srv) None Stopped
  | Setup | Stopped => srv
  end.

End Service.

Arguments HttpServer : clear implicits.
Arguments route : clear implicits.

(** A sample instance: handlers are numbered, the listener always opens,
    two ports are in range and two verbs are recognised. *)
Definition sample_port_in_range (p : string) : bool :=
  bool_decide (p = "8080") || bool_decide (p = "80").

Definition sample_method (m : string) : bool :=
  bool_decide (m = "GET") || bool_decide (m = "POST").

Definition sample_open (addr prt : string) : option unit := Some tt.

Definition sample_server : HttpServer nat unit :=
  mkServer "0.0.0.0" "8080" ∅ None Setup.

Definition sample_serving : HttpServer nat unit :=
  mkServer "0.0.0.0" "8080" (<[("/health", "GET") := 200%nat]> ∅) (Some tt) Serving.

(** The sample service in its setup phase with one route registered. *)
Definition sample_registered : HttpServer nat unit :=
  mkServer "0.0.0.0" "8080" (<[("/health", "GET") := 200%nat]> ∅) None Setup.

End httpservice.

Import Daemon.

Example detached_example_state :
  at_pc detached_example = L55_syslog_running /\
  exit_status detached_example = None /\
  trace detached_example =
    daemonize_calls ++
    [EOpenlog "my_daemon" 9 24; ESyslog 6 "Daemon started." [];
     ESignal 15 Hsignal_handler; ESignal 2 Hsignal_handler].
Proof. vm_compute. repeat split. Qed.

(** ** The daemon: basic facts *)

Lemma run_exited os n s st : exit_status s = Some st -> run os n s = s.
Proof. intros H. destruct n; simpl; [reflexivity | now rewrite H]. Qed.

Lemma run_S os n s :
  exit_status s = None -> run os (S n) s = run os n (main_step os s).
Proof. intros H. simpl. now rewrite H. Qed.

Lemma run_add os n m s : run os (n + m) s = run os m (run os n s).
Proof.
  revert s. induction n as [|n IH]; intros s; [reflexivity|].
  change (S n + m)%nat with (S (n + m)). simpl.
  destruct (exit_status s) eqn:E.
  - symmetry. now apply run_exited with (st := z).
  - apply IH.
Qed.

Lemma run_reachable os n s : reachable os s -> reachable os (run os n s).
Proof.
  revert s. induction n as [|n IH]; intros s Hs; simpl; [exact Hs|].
  destruct (exit_status s) eqn:E; [exact Hs|].
  apply IH. eapply reach_step; [exact Hs|]. now apply step_main.
Qed.

Lemma signal_handler_term signum s :
  signum = SIGTERM \/ signum = SIGINT ->
  signal_handler signum s =
    exit 0 (emit ECloselog
      (emit (ESyslog LOG_INFO "Daemon received signal %d, exiting." [signum]) s)).
Proof. intros [-> | ->]; reflexivity. Qed.

Lemma signal_handler_other signum s :
  signum <> SIGTERM -> signum <> SIGINT -> signal_handler signum s = s.
Proof.
  intros Ht Hi. unfold signal_handler.
  destruct (signum =? SIGTERM) eqn:E1; [apply Z.eqb_eq in E1; contradiction|].
  destruct (signum =? SIGINT) eqn:E2; [apply Z.eqb_eq in E2; contradiction|].
  reflexivity.
Qed.

Lemma signal_handler_cases signum s :
  (signum = SIGTERM \/ signum = SIGINT) \/ signal_handler signum s = s.
Proof.
  destruct (Z.eq_dec signum SIGTERM) as [->|Ht]; [now left; left|].
  destruct (Z.eq_dec signum SIGINT) as [->|Hi]; [now left; right|].
  right. now apply signal_handler_other.
Qed.

Lemma signal_handler_frame signum s :
  at_pc (signal_handler signum s) = at_pc s /\
  dispositions (signal_handler signum s) = dispositions s /\
  clock (signal_handler signum s) = clock s.
Proof.
  destruct (signal_handler_cases signum s) as [H | ->]; [|now repeat split].
  rewrite (signal_handler_term _ _ H). now repeat split.
Qed.

Lemma sigterm_ne_sigint : SIGTERM <> SIGINT.
Proof. discriminate. Qed.

(** ** The daemon: invariants *)

Ltac by_pc s :=
  let p := fresh "p" in
  destruct s as [p ? ? ? ?]; destruct p; simpl in *.

(** Evaluate one statement of [main] on a process given by its fields. *)
Ltac main_step_eval :=
  unfold main_step, emit, goto, exit, signal, sleep;
  cbn [at_pc trace dispositions exit_status clock app].

Lemma main_step_loop_inv os s : loop_inv s -> loop_inv (main_step os s).
Proof.
  unfold loop_inv. intros (H60 & H61 & Hterm & Hloop).
  unfold main_step. by_pc s; try congruence;
    repeat match goal with
           | |- context [if ?b then _ else _] => destruct b; simpl
           end;
    repeat split; try discriminate; intros;
    first [ apply lookup_insert_eq
          | rewrite lookup_insert_ne by discriminate; now apply Hterm
          | now apply Hloop ].
Qed.

Lemma step_loop_inv os s l s' : step os s l s' -> loop_inv s -> loop_inv s'.
Proof.
  intros Hstep Hinv. destruct Hstep as [s _ | s signum h _ _].
  - now apply main_step_loop_inv.
  - destruct h. simpl. unfold loop_inv in *.
    destruct (signal_handler_frame signum s) as (-> & -> & _). exact Hinv.
Qed.

Lemma reachable_loop_inv os s : reachable os s -> loop_inv s.
Proof.
  induction 1 as [|s l s' _ IH Hstep].
  - unfold loop_inv. simpl. repeat split; discriminate.
  - eapply step_loop_inv; eauto.
Qed.

Lemma sleeps_5_app s es (s' : proc) :
  trace s' = trace s ++ es ->
  (forall d, In (ESleep d) es -> d = 5) ->
  sleeps_5 s -> sleeps_5 s'.
Proof.
  unfold sleeps_5. intros -> Hes Hs d Hin.
  apply in_app_or in Hin. destruct Hin; auto.
Qed.

(** Every step only adds calls to the trace. *)
Lemma main_step_trace os s :
  exists es, trace (main_step os s) = trace s ++ es /\
             (forall d, In (ESleep d) es -> d = 5).
Proof.
  unfold main_step. by_pc s;
    repeat match goal with
           | |- context [if ?b then _ else _] => destruct b; simpl
           end;
    rewrite <- ?app_assoc; simpl;
    eexists; (split; [reflexivity|]); simpl; intros d Hd; intuition congruence.
Qed.

Lemma step_trace os s l s' :
  step os s l s' ->
  exists es, trace s' = trace s ++ es /\ (forall d, In (ESleep d) es -> d = 5).
Proof.
  intros [s0 _ | s0 signum h _ _].
  - apply main_step_trace.
  - destruct h. simpl.
    destruct (signal_handler_cases signum s0) as [H | ->].
    + rewrite (signal_handler_term _ _ H). exists (shutdown_calls signum).
      split; [simpl; now rewrite <- !app_assoc|].
      intros d Hin. simpl in Hin. intuition congruence.
    + exists []. split; [now rewrite app_nil_r|]. intros d [].
Qed.

Lemma reachable_sleeps_5 os s : reachable os s -> sleeps_5 s.
Proof.
  induction 1 as [|s l s' _ IH Hstep].
  - intros d [].
  - destruct (step_trace _ _ _ _ Hstep) as (es & Htr & Hes).
    eapply sleeps_5_app; eauto.
Qed.

Lemma child_tests os :
  fork_ret os = 0 -> 0 <= setsid_ret os -> 0 <= chdir_ret os ->
  (fork_ret os <? 0) = false /\ (fork_ret os >? 0) = false /\
  (setsid_ret os <? 0) = false /\ (chdir_ret os <? 0) = false.
Proof.
  intros Hf Hs Hc. rewrite Hf. repeat split; try reflexivity; now apply Z.ltb_ge.
Qed.

Lemma main_step_daemonizing_inv os s :
  fork_ret os = 0 -> 0 <= setsid_ret os -> 0 <= chdir_ret os ->
  daemonizing_inv s -> daemonizing_inv (main_step os s).
Proof.
  intros Hf Hs Hc. destruct (child_tests os Hf Hs Hc) as (T1 & T2 & T3 & T4).
  unfold daemonizing_inv, main_step.
  by_pc s; rewrite ?T1, ?T2, ?T3, ?T4; simpl;
    try (intros (-> & -> & ->); simpl; first [now repeat split | now eexists]);
    intros [es ->]; rewrite <- ?app_assoc; now eexists.
Qed.

Lemma step_daemonizing_inv os s l s' :
  fork_ret os = 0 -> 0 <= setsid_ret os -> 0 <= chdir_ret os ->
  step os s l s' -> daemonizing_inv s -> daemonizing_inv s'.
Proof.
  intros Hf Hs Hc Hstep Hinv. destruct Hstep as [s _ | s signum h Hrun Hh].
  - now apply main_step_daemonizing_inv.
  - destruct h. simpl. unfold daemonizing_inv in *.
    destruct (signal_handler_frame signum s) as (Hpc & _ & _). rewrite Hpc.
    destruct (calls_before (at_pc s)).
    + destruct Hinv as (_ & Hd & _). rewrite Hd, lookup_empty in Hh. discriminate.
    + destruct Hinv as [es Hes].
      destruct (step_trace os s (Ldeliver signum) (signal_handler signum s))
        as (es' & Htr & _).
      { exact (step_deliver os s signum Hsignal_handler Hrun Hh). }
      exists (es ++ es'). now rewrite Htr, Hes, app_assoc.
Qed.

Lemma reachable_daemonizing_inv os s :
  fork_ret os = 0 -> 0 <= setsid_ret os -> 0 <= chdir_ret os ->
  reachable os s -> daemonizing_inv s.
Proof.
  intros Hf Hs Hc. induction 1 as [|s l s' _ IH Hstep].
  - unfold daemonizing_inv. simpl. now repeat split.
  - eapply step_daemonizing_inv; eauto.
Qed.

(** The first six statements of the child, when every call succeeds. *)
Lemma run_child_6_from os d :
  fork_ret os = 0 -> 0 <= setsid_ret os -> 0 <= chdir_ret os ->
  run os 6 (mkProc L17_fork [] d None 0) = mkProc L46_openlog daemonize_calls d None 0.
Proof.
  intros Hf Hs Hc. destruct (child_tests os Hf Hs Hc) as (T1 & T2 & T3 & T4).
  do 6 (rewrite run_S by reflexivity; main_step_eval; rewrite ?T1, ?T2, ?T3, ?T4;
        main_step_eval).
  reflexivity.
Qed.

Lemma run_child_6 os :
  fork_ret os = 0 -> 0 <= setsid_ret os -> 0 <= chdir_ret os ->
  run os 6 at_start = mkProc L46_openlog daemonize_calls ∅ None 0.
Proof. apply run_child_6_from. Qed.

(** The original process leaves at its first statement. *)
Lemma main_step_parent os d :
  0 < fork_ret os ->
  main_step os (mkProc L17_fork [] d None 0) =
    mkProc L17_fork [EFork; EExit EXIT_SUCCESS] d (Some EXIT_SUCCESS) 0.
Proof.
  intros Hpid. main_step_eval.
  destruct (Z.ltb_spec (fork_ret os) 0) as [Hlt|_]; [lia|].
  destruct (Z.gtb_spec (fork_ret os) 0) as [_|Hle]; [reflexivity|lia].
Qed.

(** ** The daemon: properties *)

(** C1.  A successful daemonization performs, in this order: fork, after
    which the original process (where [fork] returned the child's pid)
    exits at once with [EXIT_SUCCESS] having made no other call, and the
    child (where [fork] returned 0) goes on; then in the child [setsid],
    [chdir("/")], and the closing of descriptors 0, 1 and 2.  After six
    statements the child has made exactly these calls and is running, and
    in every execution of the child the calls made so far are either an
    initial part of this sequence or begin with the whole of it. *)
Theorem C1_daemonize_sequence (child_pid sr cr : Z) :
  0 < child_pid -> 0 <= sr -> 0 <= cr ->
  (forall n, run (mkOs child_pid sr cr) (S n) at_start =
             mkProc L17_fork [EFork; EExit EXIT_SUCCESS] ∅ (Some EXIT_SUCCESS) 0) /\
  run (mkOs 0 sr cr) 6 at_start =
    mkProc L46_openlog
      [EFork; ESetsid; EChdir "/"; EClose STDIN_FILENO; EClose STDOUT_FILENO;
       EClose STDERR_FILENO] ∅ None 0 /\
  (forall s, reachable (mkOs 0 sr cr) s ->
     (exists k, trace s = take k daemonize_calls /\ exit_status s = None) \/
     (exists es, trace s = daemonize_calls ++ es)).
Proof.
  intros Hpid Hs Hc. split; [|split].
  - intros n. rewrite run_S by reflexivity.
    unfold at_start. rewrite main_step_parent by exact Hpid.
    now apply run_exited with (st := EXIT_SUCCESS).
  - now apply run_child_6.
  - intros s Hreach.
    pose proof (reachable_daemonizing_inv (mkOs 0 sr cr) s eq_refl Hs Hc Hreach) as Hinv.
    unfold daemonizing_inv in Hinv. destruct (calls_before (at_pc s)) as [k|].
    + left. exists k. tauto.
    + now right.
Qed.

Lemma C1_daemonize_sequence_witness :
  run os_parent 1 at_start =
    mkProc L17_fork [EFork; EExit 0] ∅ (Some 0) 0 /\
  trace (run os_child 6 at_start) = daemonize_calls.
Proof.
  destruct (C1_daemonize_sequence 4242 0 0) as (Hparent & Hchild & _); [lia | lia | lia |].
  split; [exact (Hparent 0%nat)|].
  change os_child with (mkOs 0 0 0). now rewrite Hchild.
Defined.

(** C2 as stated does not hold: delivered [SIGTERM] in the running daemon,
    the handler does not leave the shutdown to the loop; the calls it makes
    itself are the log record, [closelog] and [exit(0)]. *)
Lemma C2_counterexample :
  ~ defers_shutdown SIGTERM detached_example /\
  handler_calls SIGTERM detached_example =
    [ESyslog LOG_INFO "Daemon received signal %d, exiting." [SIGTERM];
     ECloselog; EExit 0].
Proof.
  split; [|vm_compute; reflexivity].
  unfold defers_shutdown. intros [Hstatus _].
  vm_compute in Hstatus. discriminate.
Qed.

(** C2, amended.  The handler performs the shutdown itself: for [SIGTERM]
    or [SIGINT] it logs the signal, closes the log and calls [exit(0)], in
    this order, and the process is over when it is done.  There is no flag:
    a statement of the loop in [main] makes no [closelog] or [exit] call
    and leaves the process running inside the loop. *)
Theorem C2_handler_shuts_down (signum : Z) (s : proc) :
  signum = SIGTERM \/ signum = SIGINT ->
  trace (signal_handler signum s) = trace s ++ shutdown_calls signum /\
  exit_status (signal_handler signum s) = Some 0 /\
  (forall os,
     in_loop (at_pc s) = true ->
     exit_status (main_step os s) = exit_status s /\
     in_loop (at_pc (main_step os s)) = true /\
     exists e, trace (main_step os s) = trace s ++ [e] /\
               e <> ECloselog /\ forall st, e <> EExit st).
Proof.
  intros Hsig. rewrite (signal_handler_term _ _ Hsig). split; [|split].
  - simpl. now rewrite <- !app_assoc.
  - reflexivity.
  - intros os Hloop. unfold main_step.
    by_pc s; try discriminate; (repeat split; [eexists; repeat split; discriminate]).
Qed.

Lemma C2_handler_shuts_down_witness :
  trace (signal_handler SIGINT detached_example) =
    trace detached_example ++ shutdown_calls SIGINT /\
  exit_status (signal_handler SIGINT detached_example) = Some 0.
Proof.
  destruct (C2_handler_shuts_down SIGINT detached_example) as (Ht & Hs & _).
  - right. reflexivity.
  - split; [exact Ht | exact Hs].
Defined.

(** C3 as stated does not hold: the three failures end the process with
    the same status. *)
Lemma C3_counterexample :
  ~ (final_status os_fork_fails <> final_status os_setsid_fails /\
     final_status os_fork_fails <> final_status os_chdir_fails /\
     final_status os_setsid_fails <> final_status os_chdir_fails).
Proof. intros [H _]. apply H. vm_compute. reflexivity. Qed.

(** C3, amended.  A failure of [fork], of [setsid] or of [chdir] ends the
    process with [EXIT_FAILURE], the same non-zero status for all three.
    None is retried: the failed call is the last call before [exit], it
    was made once, and however many more statements are allowed the
    process state stays the same. *)
Theorem C3_failures_exit_failure (os : os_results) :
  EXIT_FAILURE <> 0 /\
  (fork_ret os < 0 ->
   forall n, run os (1 + n) at_start =
     mkProc L17_fork [EFork; EExit EXIT_FAILURE] ∅ (Some EXIT_FAILURE) 0) /\
  (fork_ret os = 0 -> setsid_ret os < 0 ->
   forall n, run os (2 + n) at_start =
     mkProc L31_setsid [EFork; ESetsid; EExit EXIT_FAILURE] ∅ (Some EXIT_FAILURE) 0) /\
  (fork_ret os = 0 -> 0 <= setsid_ret os -> chdir_ret os < 0 ->
   forall n, run os (3 + n) at_start =
     mkProc L36_chdir [EFork; ESetsid; EChdir "/"; EExit EXIT_FAILURE] ∅
            (Some EXIT_FAILURE) 0).
Proof.
  split; [discriminate|]. unfold at_start. generalize (∅ : gmap Z sighandler) as d.
  intros d. split; [|split].
  - intros Hf n. rewrite run_add.
    rewrite (run_S _ 0) by reflexivity. main_step_eval.
    destruct (Z.ltb_spec (fork_ret os) 0) as [_|]; [|lia].
    now apply run_exited with (st := EXIT_FAILURE).
  - intros Hf Hs n. rewrite run_add.
    do 2 (rewrite run_S by reflexivity; main_step_eval; rewrite ?Hf;
          cbn [Z.ltb Z.gtb Z.compare]).
    destruct (Z.ltb_spec (setsid_ret os) 0) as [_|]; [|lia].
    now apply run_exited with (st := EXIT_FAILURE).
  - intros Hf Hs Hc n. rewrite run_add.
    assert (T : (setsid_ret os <? 0) = false) by now apply Z.ltb_ge.
    do 3 (rewrite run_S by reflexivity; main_step_eval; rewrite ?Hf, ?T;
          cbn [Z.ltb Z.gtb Z.compare]).
    destruct (Z.ltb_spec (chdir_ret os) 0) as [_|]; [|lia].
    now apply run_exited with (st := EXIT_FAILURE).
Qed.

Lemma C3_failures_exit_failure_witness :
  final_status os_fork_fails = Some EXIT_FAILURE /\
  final_status os_setsid_fails = Some EXIT_FAILURE /\
  final_status os_chdir_fails = Some EXIT_FAILURE.
Proof.
  unfold final_status. split; [|split].
  - destruct (C3_failures_exit_failure os_fork_fails) as (_ & H & _).
    change 20%nat with (1 + 19)%nat. rewrite H; [reflexivity | simpl; lia].
  - destruct (C3_failures_exit_failure os_setsid_fails) as (_ & _ & H & _).
    change 20%nat with (2 + 18)%nat. rewrite H; [reflexivity | reflexivity | simpl; lia].
  - destruct (C3_failures_exit_failure os_chdir_fails) as (_ & _ & _ & H).
    change 20%nat with (3 + 17)%nat.
    rewrite H; [reflexivity | reflexivity | simpl; lia | simpl; lia].
Defined.

(** C9.  For a signal number other than [SIGTERM] and [SIGINT] the handler
    returns the process as it found it: no call is made (no log record, no
    [closelog], no [exit]) and no field of the process changes. *)
Theorem C9_other_signals_ignored (signum : Z) (s : proc) :
  signum <> SIGTERM -> signum <> SIGINT -> signal_handler signum s = s.
Proof. apply signal_handler_other. Qed.

Lemma C9_other_signals_ignored_witness :
  signal_handler 1 detached_example = detached_example.
Proof. apply C9_other_signals_ignored; discriminate. Defined.

Lemma detached_iff s :
  process_state s = Detached <-> exit_status s = None /\ in_loop (at_pc s) = true.
Proof.
  unfold process_state. destruct (exit_status s), (in_loop (at_pc s));
    split; try discriminate; intros; try tauto; destruct H; discriminate.
Qed.

(** A statement of the loop leaves the process running inside the loop. *)
Lemma main_step_detached os s :
  process_state s = Detached -> process_state (main_step os s) = Detached.
Proof.
  rewrite !detached_iff. intros [Hrun Hloop]. unfold main_step.
  by_pc s; try discriminate; now split.
Qed.

Lemma run_detached os n s :
  process_state s = Detached -> process_state (run os n s) = Detached.
Proof.
  revert s. induction n as [|n IH]; intros s Hs; [exact Hs|].
  simpl. destruct (exit_status s); [exact Hs|].
  apply IH. now apply main_step_detached.
Qed.

(** A step of a Detached process: it stays Detached, unless the step is
    the delivery of [SIGTERM] or [SIGINT], whose handler ends it. *)
Lemma step_detached os s l s' :
  process_state s = Detached -> step os s l s' ->
  process_state s' = Detached \/
  exists signum, l = Ldeliver signum /\ (signum = SIGTERM \/ signum = SIGINT) /\
                 s' = signal_handler signum s /\ exit_status s' = Some 0.
Proof.
  intros Hdet Hstep. destruct Hstep as [s0 _ | s0 signum h _ _].
  - left. now apply main_step_detached.
  - destruct h. simpl.
    destruct (signal_handler_cases signum s0) as [Hsig | Hsame].
    + right. exists signum. repeat split; try assumption.
      now rewrite (signal_handler_term _ _ Hsig).
    + left. now rewrite Hsame.
Qed.

(** The two statements of the loop, from its top. *)
Lemma run_cycle os t d c :
  run os 2 (mkProc L55_syslog_running t d None c) =
  mkProc L55_syslog_running (t ++ heartbeat_cycle) d None (c + 5).
Proof.
  do 2 (rewrite run_S by reflexivity; main_step_eval).
  simpl. now rewrite <- app_assoc.
Qed.

Lemma run_cycles os k t d c :
  run os (2 * k) (mkProc L55_syslog_running t d None c) =
  mkProc L55_syslog_running (t ++ cycles k) d None (c + 5 * Z.of_nat k).
Proof.
  revert t c. induction k as [|k IH]; intros t c.
  - simpl. f_equal; [now rewrite app_nil_r | lia].
  - replace (2 * S k)%nat with (2 + 2 * k)%nat by lia.
    rewrite run_add, run_cycle, IH. f_equal.
    + change (cycles (S k)) with (heartbeat_cycle ++ cycles k).
      now rewrite app_assoc.
    + lia.
Qed.

(** The child reaches the loop after ten statements. *)
Lemma run_child_10_from os d :
  fork_ret os = 0 -> 0 <= setsid_ret os -> 0 <= chdir_ret os ->
  run os 10 (mkProc L17_fork [] d None 0) =
  mkProc L55_syslog_running
    (daemonize_calls ++
     [EOpenlog "my_daemon" (Z.lor LOG_PID LOG_NDELAY) LOG_DAEMON;
      ESyslog LOG_INFO "Daemon started." [];
      ESignal SIGTERM Hsignal_handler; ESignal SIGINT Hsignal_handler])
    (<[SIGINT := Hsignal_handler]> (<[SIGTERM := Hsignal_handler]> d)) None 0.
Proof.
  intros Hf Hs Hc. change 10%nat with (6 + 4)%nat.
  rewrite run_add, run_child_6_from by assumption.
  do 4 (rewrite run_S by reflexivity; main_step_eval).
  reflexivity.
Qed.

(** Between two statements of the service loop both [SIGINT] and [SIGTERM]
    have the handler installed, and the delivery of either there ends the
    process with exit status 0. *)
Lemma loop_delivery_exits_0 (os : os_results) (s : proc) (signum : Z) :
  reachable os s ->
  process_state s = Detached ->
  signum = SIGINT \/ signum = SIGTERM ->
  step os s (Ldeliver signum) (signal_handler signum s) /\
  (forall s', step os s (Ldeliver signum) s' ->
     process_state s' = Terminating /\ exit_status s' = Some 0).
Proof.
  intros Hreach Hdet Hsig. apply detached_iff in Hdet as [Hrun Hloop].
  destruct (reachable_loop_inv os s Hreach) as (_ & _ & _ & Hh).
  destruct (Hh Hloop) as [Hterm Hint].
  assert (Hsig' : signum = SIGTERM \/ signum = SIGINT) by tauto.
  split.
  - apply (step_deliver os s signum Hsignal_handler Hrun).
    destruct Hsig as [-> | ->]; assumption.
  - intros s' Hstep. inversion Hstep as [|s0 sg h _ _ Hs0 Hl Hs']; subst.
    destruct h. simpl. rewrite (signal_handler_term _ _ Hsig').
    unfold process_state. simpl. now split.
Qed.

(** C5 as stated does not hold: the interval is not a configuration
    value.  No answer of the operating system and no signal makes the
    daemon suspend for anything but 5 seconds. *)
Lemma C5_counterexample : ~ interval_configurable.
Proof.
  intros (os & s & d & Hreach & Hin & Hd).
  apply Hd. exact (reachable_sleeps_5 os s Hreach d Hin).
Qed.

(** C5, amended.  The child whose daemonization succeeds is Detached, at
    the top of the service loop, after ten statements.  From the top of
    the loop the daemon repeats without any test the cycle: log one
    heartbeat record, then [sleep(5)]; after [2 * k] statements it has
    added [k] such cycles to its calls, slept [5 * k] seconds, and is at
    the top of the loop again, still running.  The interval is the literal
    5 of the source: every [sleep] of every execution is for 5 seconds. *)
Theorem C5_service_loop (os : os_results) :
  (fork_ret os = 0 -> 0 <= setsid_ret os -> 0 <= chdir_ret os ->
   at_pc (run os 10 at_start) = L55_syslog_running /\
   process_state (run os 10 at_start) = Detached) /\
  (forall s k,
     at_pc s = L55_syslog_running -> exit_status s = None ->
     run os (2 * k) s =
       mkProc L55_syslog_running (trace s ++ cycles k) (dispositions s) None
              (clock s + 5 * Z.of_nat k)) /\
  (forall s d, reachable os s -> In (ESleep d) (trace s) -> d = 5).
Proof.
  split; [|split].
  - intros Hf Hs Hc. unfold at_start.
    rewrite run_child_10_from by assumption. now split.
  - intros [p t d e c] k Hpc Hrun. simpl in Hpc, Hrun. subst p e.
    apply run_cycles.
  - intros s d Hreach. exact (reachable_sleeps_5 os s Hreach d).
Qed.

Lemma C5_service_loop_witness :
  process_state detached_example = Detached /\
  trace (run os_child 6 detached_example) = trace detached_example ++ cycles 3 /\
  clock (run os_child 6 detached_example) = 15.
Proof.
  destruct (C5_service_loop os_child) as (Hreach & Hloop & _).
  split.
  - apply Hreach; [reflexivity | simpl; lia | simpl; lia].
  - change 6%nat with (2 * 3)%nat. rewrite Hloop.
    + split; [reflexivity | vm_compute; reflexivity].
    + vm_compute. reflexivity.
    + vm_compute. reflexivity.
Defined.

(** ** The HTTP service shell: properties *)

Import httpservice.

Section ServiceProperties.

Context {Handler ListenerHandle : Type}.
Variable port_in_range : string -> bool.
Variable recognized_method : string -> bool.
Variable on_duplicate : duplicate_policy.
Variable open_endpoint : string -> string -> option ListenerHandle.

Local Abbreviation server := (HttpServer Handler ListenerHandle).

Lemma add_route_serving (srv : server) path method (h : Handler) :
  phase srv = Serving ->
  add_route recognized_method on_duplicate path method h srv =
    (srv, Failed LifecycleError).
Proof. intros Hph. unfold add_route. now rewrite Hph. Qed.

Lemma add_route_setup (srv : server) path method (h : Handler) :
  phase srv = Setup -> path <> "" -> recognized_method method = true ->
  on_duplicate = Replace \/ registry srv !! (path, method) = None ->
  add_route recognized_method on_duplicate path method h srv =
    (mkServer (address srv) (port srv) (<[(path, method) := h]> (registry srv))
              (listener_ srv) Setup, Done).
Proof.
  intros Hph Hpath Hm Hdup. unfold add_route. rewrite Hph, Hm.
  rewrite bool_decide_eq_false_2 by exact Hpath. cbn [negb orb].
  destruct Hdup as [-> | ->]; [|reflexivity].
  now destruct (registry srv !! (path, method)).
Qed.

(** A registration rejected in the setup phase is a configuration error,
    and the service is as it was. *)
Lemma add_route_setup_failed (srv srv' : server) path method (h : Handler) e :
  phase srv = Setup ->
  add_route recognized_method on_duplicate path method h srv = (srv', Failed e) ->
  e = ConfigurationError /\ srv' = srv.
Proof.
  intros Hph. unfold add_route. rewrite Hph.
  destruct (_ || _); [now intros [= <- <-]|].
  destruct (registry srv !! (path, method)), on_duplicate;
    intros [= <- <-] || discriminate; now split.
Qed.

(** The hook never takes the service out of its setup phase. *)
Lemma add_route_phase (srv : server) path method (h : Handler) :
  phase (add_route recognized_method on_duplicate path method h srv).1 = phase srv.
Proof.
  unfold add_route. destruct (phase srv) eqn:E; [|exact E|exact E].
  destruct (_ || _); [exact E|].
  destruct (registry srv !! (path, method)), on_duplicate;
    first [exact E | reflexivity].
Qed.

Lemma setup_routes_phase rs (srv : server) :
  phase (setup_routes recognized_method on_duplicate rs srv).1 = phase srv.
Proof.
  revert srv. induction rs as [|r rs IH]; intros srv; [reflexivity|].
  simpl. pose proof (add_route_phase srv (route_path r) (route_method r)
                       (route_handler r)) as Hph.
  destruct (add_route _ _ _ _ _ srv) as [srv' [|e]]; simpl in *.
  - now rewrite IH.
  - exact Hph.
Qed.

Lemma start_serving rs (srv0 srv : server) :
  start recognized_method on_duplicate open_endpoint rs srv0 = Some (srv, Done) ->
  phase srv = Serving /\ is_Some (listener_ srv).
Proof.
  unfold start. destruct (phase srv0); try discriminate.
  destruct (setup_routes _ _ rs srv0) as [srv1 [|e]]; [|discriminate].
  destruct (open_endpoint _ _) as [hd|]; [|discriminate].
  intros [= <-]. simpl. split; [reflexivity | now exists hd].
Qed.

(** C6, amended.  Once [start] has begun serving (it returned the service
    with the endpoint open), a route registration fails with
    [LifecycleError] and leaves the service exactly as it was: the
    endpoint stays open and the registry is untouched.  Before [start], in
    the setup phase, no registration fails with [LifecycleError]: one that
    is rejected is a [ConfigurationError] and changes nothing.  Accepted
    into the registry is every registration whose key is well-formed
    (non-empty path, recognised method) and is either not registered yet
    or replaced under the replace policy: the registry then holds the
    handler under that key and nothing else of the service changes.  Any
    other registration in the setup phase (empty path, unrecognised
    method, or a registered key under the reject policy) is rejected with
    [ConfigurationError]. *)
Theorem C6_add_route_lifecycle (srv : server) (path method : string) (h : Handler) :
  (phase srv = Serving ->
     add_route recognized_method on_duplicate path method h srv =
       (srv, Failed LifecycleError)) /\
  (forall rs srv0,
     start recognized_method on_duplicate open_endpoint rs srv0 = Some (srv, Done) ->
     is_Some (listener_ srv) /\
     add_route recognized_method on_duplicate path method h srv =
       (srv, Failed LifecycleError)) /\
  (phase srv = Setup ->
     forall srv' e,
       add_route recognized_method on_duplicate path method h srv =
         (srv', Failed e) ->
       e = ConfigurationError /\ srv' = srv) /\
  (phase srv = Setup -> path <> "" -> recognized_method method = true ->
   on_duplicate = Replace \/ registry srv !! (path, method) = None ->
     exists srv',
       add_route recognized_method on_duplicate path method h srv = (srv', Done) /\
       registry srv' !! (path, method) = Some h /\
       registry srv' = <[(path, method) := h]> (registry srv) /\
       phase srv' = Setup /\ listener_ srv' = listener_ srv /\
       address srv' = address srv /\ port srv' = port srv) /\
  (phase srv = Setup ->
   path = "" \/ recognized_method method = false \/
   (on_duplicate = Reject /\ is_Some (registry srv !! (path, method))) ->
     add_route recognized_method on_duplicate path method h srv =
       (srv, Failed ConfigurationError)).
Proof.
  split; [|split; [|split; [|split]]].
  - apply add_route_serving.
  - intros rs srv0 Hstart. destruct (start_serving rs srv0 srv Hstart) as [Hph Hl].
    split; [exact Hl | now apply add_route_serving].
  - intros Hph srv' e. now apply add_route_setup_failed.
  - intros Hph Hpath Hm Hdup. eexists. split; [now apply add_route_setup|].
    simpl. split; [apply lookup_insert_eq | now repeat split].
  - intros Hph Hbad. unfold add_route. rewrite Hph.
    destruct Hbad as [-> | [-> | [-> [h' ->]]]].
    + reflexivity.
    + now rewrite orb_true_r.
    + now destruct (_ || _).
Qed.

(** C7.  The constructor fails with [ConfigurationError] when the bind
    address is empty and when the port is not in the valid range, and
    succeeds otherwise; the service it returns holds no listener handle
    (nothing is bound) and is in its setup phase with an empty registry.
    It has no access to the listener: [open_endpoint] is not among its
    arguments. *)
Theorem C7_construct_validates (addr prt : string) :
  (addr = "" ->
     (construct port_in_range addr prt : result server) = Err ConfigurationError) /\
  (port_in_range prt = false ->
     (construct port_in_range addr prt : result server) = Err ConfigurationError) /\
  (addr <> "" -> port_in_range prt = true ->
     (construct port_in_range addr prt : result server) =
       Ok (mkServer addr prt ∅ None Setup)) /\
  (forall srv : server,
     construct port_in_range addr prt = Ok srv ->
     listener_ srv = None /\ phase srv = Setup /\
     addr <> "" /\ port_in_range prt = true).
Proof.
  unfold construct. split; [|split; [|split]].
  - intros ->. reflexivity.
  - intros ->. now rewrite orb_true_r.
  - intros Ha ->. now rewrite bool_decide_eq_false_2.
  - intros srv. destruct (bool_decide_reflect (addr = "")) as [Ha|Ha];
      [discriminate|].
    destruct (port_in_range prt); [|discriminate].
    simpl. intros [= <-]. now repeat split.
Qed.

Lemma stop_stop (srv : server) : stop (stop srv) = stop srv.
Proof. unfold stop. destruct (phase srv) eqn:E; simpl; now rewrite ?E. Qed.

Lemma stop_iter (srv : server) n : Nat.iter (S n) stop srv = stop srv.
Proof.
  induction n as [|n IH]; [reflexivity|].
  change (Nat.iter (S (S n)) stop srv) with (stop (Nat.iter (S n) stop srv)).
  rewrite IH. apply stop_stop.
Qed.

(** C8.  [stop] is idempotent: a second call changes nothing
    ([stop (stop srv) = stop srv]), any number of calls leaves the service
    as the first one did, and on a service that was not started [stop]
    changes nothing at all. *)
Theorem C8_stop_idempotent (srv : server) :
  stop (stop srv) = stop srv /\
  (forall n, Nat.iter (S n) stop srv = stop srv) /\
  (phase srv = Setup -> stop srv = srv /\ forall n, Nat.iter n stop srv = srv).
Proof.
  split; [apply stop_stop | split; [apply stop_iter|]].
  intros Hph. assert (H1 : stop srv = srv) by (unfold stop; now rewrite Hph).
  split; [exact H1|]. intros [|n]; [reflexivity|].
  now rewrite stop_iter.
Qed.

End ServiceProperties.

Example sample_start :
  start sample_method Replace sample_open [mkRoute "/health" "GET" 200%nat]
        sample_server =
    Some (sample_serving, Done).
Proof. vm_compute. reflexivity. Qed.

(** C6 as stated does not hold: not every registration made before
    [start] is accepted.  On a service in its setup phase the registration
    of an empty path is rejected with [ConfigurationError], and so is,
    under the reject policy, the registration of a key that is registered
    already. *)
Lemma C6_counterexample :
  ~ (forall path method (h : nat),
       (add_route sample_method Replace path method h sample_server).2 = Done) /\
  add_route sample_method Replace "" "GET" 200%nat sample_server =
    (sample_server, Failed ConfigurationError) /\
  add_route sample_method Reject "/health" "GET" 500%nat sample_registered =
    (sample_registered, Failed ConfigurationError).
Proof.
  split; [|split; vm_compute; reflexivity].
  intros H. specialize (H "" "GET" 200%nat). vm_compute in H. discriminate.
Qed.

Lemma C6_add_route_lifecycle_witness :
  add_route sample_method Reject "/late" "GET" 404%nat sample_serving =
    (sample_serving, Failed LifecycleError) /\
  exists srv', add_route sample_method Reject "/health" "GET" 200%nat sample_server =
                 (srv', Done) /\
               registry srv' !! ("/health", "GET") = Some 200%nat.
Proof.
  split.
  - destruct (C6_add_route_lifecycle sample_method Reject sample_open
                sample_serving "/late" "GET" 404%nat) as (H & _).
    apply H. reflexivity.
  - destruct (C6_add_route_lifecycle sample_method Reject sample_open
                sample_server "/health" "GET" 200%nat) as (_ & _ & _ & H & _).
    destruct H as (srv' & Hadd & Hlook & _);
      [reflexivity | discriminate | reflexivity | right; vm_compute; reflexivity |].
    exists srv'. split; [exact Hadd | exact Hlook].
Defined.

Lemma C7_construct_validates_witness :
  (construct sample_port_in_range "" "8080" : result (HttpServer nat unit)) =
    Err ConfigurationError /\
  (construct sample_port_in_range "0.0.0.0" "8080" : result (HttpServer nat unit)) =
    Ok sample_server.
Proof.
  destruct (C7_construct_validates (Handler := nat) (ListenerHandle := unit)
              sample_port_in_range "" "8080") as (Hempty & _).
  destruct (C7_construct_validates (Handler := nat) (ListenerHandle := unit)
              sample_port_in_range "0.0.0.0" "8080") as (_ & _ & Hok & _).
  split; [apply Hempty; reflexivity | apply Hok; [discriminate | reflexivity]].
Defined.

Lemma C8_stop_idempotent_witness :
  stop (stop sample_serving) = stop sample_serving /\
  stop sample_server = sample_server.
Proof.
  split.
  - exact (proj1 (C8_stop_idempotent sample_serving)).
  - exact (proj1 (proj2 (proj2 (C8_stop_idempotent sample_server)) eq_refl)).
Defined.

(** ** The daemon: the shape of every execution *)

Lemma cycles_snoc k : cycles k ++ heartbeat_cycle = cycles (S k).
Proof.
  induction k as [|k IH]; [reflexivity|].
  change (cycles (S k)) with (heartbeat_cycle ++ cycles k) at 1.
  rewrite <- app_assoc, IH. reflexivity.
Qed.

Lemma ending_running os l es : ending os l None es -> es = [].
Proof. now inversion 1. Qed.

Lemma at_start_shape os : shape os at_start.
Proof.
  exists 0%nat, []. repeat split; try reflexivity; constructor.
Qed.

Lemma main_step_shape os s :
  exit_status s = None -> shape os s -> shape os (main_step os s).
Proof.
  intros Hrun (k & es & Htr & Hend & Hclk & Hk & Hd & Hpass).
  rewrite Hrun in Hend. apply ending_running in Hend. subst es.
  rewrite app_nil_r in Htr.
  destruct s as [p t d e c]. cbn [at_pc trace dispositions exit_status clock] in *.
  subst t d e c.
  destruct p; try (specialize (Hk eq_refl); subst k); cbn [passed] in Hpass;
    try contradiction; main_step_eval.
  - destruct (Z.ltb_spec (fork_ret os) 0) as [Hlt|Hge].
    { exists 0%nat, [EFork; EExit EXIT_FAILURE].
      repeat split; now constructor. }
    destruct (Z.gtb_spec (fork_ret os) 0) as [Hgt|Hle].
    { exists 0%nat, [EFork; EExit EXIT_SUCCESS].
      repeat split; now constructor. }
    exists 0%nat, []. repeat split; [constructor | cbn [passed at_pc]; lia].
  - destruct (Z.ltb_spec (setsid_ret os) 0) as [Hlt|Hge].
    { exists 0%nat, [ESetsid; EExit EXIT_FAILURE].
      repeat split; first [now constructor | assumption]. }
    exists 0%nat, []. repeat split; first [constructor | assumption].
  - destruct (Z.ltb_spec (chdir_ret os) 0) as [Hlt|Hge].
    { exists 0%nat, [EChdir "/"; EExit EXIT_FAILURE].
      repeat split; first [now constructor | tauto]. }
    exists 0%nat, []. repeat split; first [constructor | tauto].
  - exists 0%nat, []. repeat split; first [constructor | tauto].
  - exists 0%nat, []. repeat split; first [constructor | tauto].
  - exists 0%nat, []. repeat split; first [constructor | tauto].
  - exists 0%nat, []. repeat split; first [constructor | tauto].
  - exists 0%nat, []. repeat split; first [constructor | tauto].
  - exists 0%nat, []. repeat split; first [constructor | tauto].
  - exists 0%nat, []. repeat split; first [constructor | tauto].
  - exists k, []. repeat split; try tauto; try constructor; try discriminate.
    unfold expected. cbn [in_loop pending]. now rewrite !app_nil_r, <- !app_assoc.
  - exists (S k), []. repeat split; try tauto; try constructor; try discriminate.
    + unfold expected. cbn [in_loop pending]. rewrite !app_nil_r, <- cycles_snoc.
      now rewrite <- !app_assoc.
    + cbn [clock]. lia.
Qed.

Lemma disp_at_handled l signum h :
  disp_at l !! signum = Some h ->
  (signum = SIGTERM \/ signum = SIGINT) /\
  (l = L51_signal_SIGINT /\ signum = SIGTERM \/ (10 <= stmt_index l)%nat).
Proof.
  unfold disp_at.
  destruct l; cbn [stmt_index];
    rewrite ?lookup_insert, ?lookup_empty;
    repeat case_decide; try discriminate; subst; intros _;
    split; auto; try (right; lia).
Qed.

Lemma deliver_shape os s signum h :
  exit_status s = None -> dispositions s !! signum = Some h ->
  shape os s -> shape os (run_handler h signum s).
Proof.
  intros Hrun Hh Hshape. destruct h. cbn [run_handler].
  destruct (signal_handler_cases signum s) as [Hsig | ->]; [|exact Hshape].
  rewrite (signal_handler_term _ _ Hsig).
  destruct Hshape as (k & es & Htr & Hend & Hclk & Hk & Hd & Hpass).
  rewrite Hrun in Hend. apply ending_running in Hend. subst es.
  rewrite app_nil_r in Htr.
  exists k, (shutdown_calls signum). unfold exit, emit.
  cbn [at_pc trace dispositions exit_status clock].
  repeat split; try assumption.
  - rewrite Htr. unfold shutdown_calls. now rewrite <- !app_assoc.
  - apply end_signal. now rewrite <- Hd.
Qed.

Lemma step_shape os s l s' : step os s l s' -> shape os s -> shape os s'.
Proof.
  intros Hstep Hshape. destruct Hstep as [s Hrun | s signum h Hrun Hh].
  - now apply main_step_shape.
  - now apply deliver_shape.
Qed.

Lemma reachable_shape os s : reachable os s -> shape os s.
Proof.
  induction 1 as [|s l s' _ IH Hstep].
  - apply at_start_shape.
  - eapply step_shape; eauto.
Qed.

(** ** The daemon: properties of every execution *)

(** X1.  Only the two termination signals ever get a handler.  Until the
    first [signal] call has been made (line 50) no handler is installed at
    all, and between the two [signal] calls [SIGTERM] has the handler
    while [SIGINT] has none yet. *)
Theorem handlers_only_for_termination (os : os_results) (s : proc) :
  reachable os s ->
  (forall signum h,
     dispositions s !! signum = Some h -> signum = SIGTERM \/ signum = SIGINT) /\
  ((stmt_index (at_pc s) <= 8)%nat -> dispositions s = ∅) /\
  (at_pc s = L51_signal_SIGINT ->
     dispositions s !! SIGTERM = Some Hsignal_handler /\
     dispositions s !! SIGINT = None).
Proof.
  intros Hreach.
  destruct (reachable_shape os s Hreach) as (k & es & _ & _ & _ & _ & Hd & _).
  rewrite Hd. split; [|split].
  - intros signum h Hh. now destruct (disp_at_handled _ _ _ Hh).
  - destruct (at_pc s); cbn [stmt_index]; intros Hle; try lia; reflexivity.
  - intros ->. unfold disp_at. split.
    + apply lookup_insert_eq.
    + rewrite lookup_insert_ne by discriminate. apply lookup_empty.
Qed.

Lemma handlers_only_for_termination_witness :
  dispositions between_signals !! SIGTERM = Some Hsignal_handler /\
  dispositions between_signals !! SIGINT = None.
Proof.
  destruct (handlers_only_for_termination os_child between_signals) as (_ & _ & H).
  - exact (run_reachable os_child 9 at_start (reach_start os_child)).
  - apply H. vm_compute. reflexivity.
Defined.

(** X2.  The daemon gets into its service loop in some execution exactly
    when [fork] returns 0 and neither [setsid] nor [chdir] returns a
    negative value. *)
Theorem detached_iff_daemonized (os : os_results) :
  (exists s, reachable os s /\ process_state s = Detached) <->
  fork_ret os = 0 /\ 0 <= setsid_ret os /\ 0 <= chdir_ret os.
Proof.
  split.
  - intros (s & Hreach & Hdet). apply detached_iff in Hdet as [_ Hloop].
    destruct (reachable_shape os s Hreach) as (k & es & _ & _ & _ & _ & _ & Hpass).
    destruct (at_pc s); try discriminate; exact Hpass.
  - intros (Hf & Hs & Hc). exists (run os 10 at_start). split.
    + apply run_reachable, reach_start.
    + unfold at_start. now rewrite run_child_10_from.
Qed.

Lemma detached_iff_daemonized_witness :
  (exists s, reachable os_child s /\ process_state s = Detached) /\
  ~ (exists s, reachable os_chdir_fails s /\ process_state s = Detached).
Proof.
  split.
  - apply (proj2 (detached_iff_daemonized os_child)). simpl. lia.
  - intros H. apply (proj1 (detached_iff_daemonized os_chdir_fails)) in H.
    simpl in H. lia.
Defined.

(** X3.  The five ways the process ends, read from its exit status: the
    failure of [fork], the original process after a successful [fork], the
    failure of [setsid], the failure of [chdir] (each right after the call,
    the three failures with [EXIT_FAILURE] and nothing logged), and, in a
    child whose daemonization calls all succeeded, the handler of
    [SIGTERM] or [SIGINT], whose three calls end the trace, with status
    0. *)
Theorem exit_status_classified (os : os_results) (s : proc) (st : Z) :
  reachable os s -> exit_status s = Some st ->
  (fork_ret os < 0 /\ st = EXIT_FAILURE /\
   trace s = [EFork; EExit EXIT_FAILURE]) \/
  (0 < fork_ret os /\ st = EXIT_SUCCESS /\
   trace s = [EFork; EExit EXIT_SUCCESS]) \/
  (fork_ret os = 0 /\ setsid_ret os < 0 /\ st = EXIT_FAILURE /\
   trace s = [EFork; ESetsid; EExit EXIT_FAILURE]) \/
  (fork_ret os = 0 /\ 0 <= setsid_ret os /\ chdir_ret os < 0 /\
   st = EXIT_FAILURE /\
   trace s = [EFork; ESetsid; EChdir "/"; EExit EXIT_FAILURE]) \/
  (fork_ret os = 0 /\ 0 <= setsid_ret os /\ 0 <= chdir_ret os /\ st = 0 /\
   exists t signum,
     (signum = SIGTERM \/ signum = SIGINT) /\
     trace s = t ++ shutdown_calls signum).
Proof.
  intros Hreach Hst.
  destruct (reachable_shape os s Hreach) as (k & es & Htr & Hend & _ & Hk & _ & Hpass).
  rewrite Hst in Hend.
  inversion Hend as [ | Hl Hos | Hl Hos | Hl Hos | Hl Hos | signum Hh]; subst;
    try (rewrite Hl in *; specialize (Hk eq_refl); subst k; cbn [passed] in Hpass).
  - left. now repeat split.
  - right; left. now repeat split.
  - right; right; left. now repeat split.
  - right; right; right; left. destruct Hpass. now repeat split.
  - right; right; right; right.
    destruct (disp_at_handled _ _ _ Hh) as [Hsig Hl].
    assert (Hp : fork_ret os = 0 /\ 0 <= setsid_ret os /\ 0 <= chdir_ret os).
    { destruct (at_pc s); cbn [stmt_index passed] in *;
        try exact Hpass; destruct Hl as [[? _]|?]; try discriminate; lia. }
    destruct Hp as (? & ? & ?). repeat split; try assumption.
    exists (expected (at_pc s) k), signum. now split.
Qed.

Lemma exit_status_classified_witness :
  exists t signum,
    (signum = SIGTERM \/ signum = SIGINT) /\
    trace (signal_handler SIGTERM between_signals) = t ++ shutdown_calls signum.
Proof.
  destruct (exit_status_classified os_child
              (signal_handler SIGTERM between_signals) 0)
    as [H|[H|[H|[H|H]]]].
  - apply reach_step with (s := between_signals) (l := Ldeliver SIGTERM).
    + exact (run_reachable os_child 9 at_start (reach_start os_child)).
    + apply (step_deliver os_child between_signals SIGTERM Hsignal_handler);
        vm_compute; reflexivity.
  - vm_compute. reflexivity.
  - simpl in H. lia.
  - simpl in H. lia.
  - simpl in H. lia.
  - simpl in H. lia.
  - destruct H as (_ & _ & _ & _ & H). exact H.
Defined.

Lemma heartbeats_app t1 t2 : heartbeats (t1 ++ t2) = (heartbeats t1 + heartbeats t2)%nat.
Proof.
  induction t1 as [|e t1 IH]; [reflexivity|].
  destruct e; simpl; try exact IH.
  destruct (String.eqb _ _); simpl; now rewrite IH.
Qed.

Lemma heartbeats_cycles k : heartbeats (cycles k) = k.
Proof.
  induction k as [|k IH]; [reflexivity|].
  change (cycles (S k)) with (heartbeat_cycle ++ cycles k).
  rewrite heartbeats_app, IH. reflexivity.
Qed.

Lemma heartbeats_ending os l st es : ending os l st es -> heartbeats es = 0%nat.
Proof. now destruct 1. Qed.

Lemma heartbeats_expected l k :
  (in_loop l = false -> k = 0%nat) ->
  heartbeats (expected l k) = (k + length (pending l))%nat.
Proof.
  intros Hk. unfold expected. destruct (in_loop l) eqn:Hloop.
  - rewrite !heartbeats_app, heartbeats_cycles.
    destruct l; try discriminate; reflexivity.
  - rewrite (Hk eq_refl). destruct l; try discriminate; reflexivity.
Qed.

(** X5.  Heartbeats are paced by the sleeps: in every execution the
    number of heartbeat records logged so far is the number of completed
    5-second sleeps, or one more when the daemon has logged and not yet
    slept.  So at most one heartbeat is logged per 5 seconds slept, plus
    the first. *)
Theorem heartbeat_rate (os : os_results) (s : proc) :
  reachable os s ->
  clock s <= 5 * Z.of_nat (heartbeats (trace s)) <= clock s + 5 /\
  (at_pc s = L55_syslog_running -> 5 * Z.of_nat (heartbeats (trace s)) = clock s).
Proof.
  intros Hreach.
  destruct (reachable_shape os s Hreach) as (k & es & Htr & Hend & Hclk & Hk & _ & _).
  rewrite Htr, heartbeats_app, (heartbeats_ending _ _ _ _ Hend),
    (heartbeats_expected _ _ Hk), Hclk.
  split.
  - destruct (at_pc s); cbn [pending length]; lia.
  - intros ->. cbn [pending length]. lia.
Qed.

Lemma heartbeat_rate_witness :
  clock (run os_child 15 at_start) <=
    5 * Z.of_nat (heartbeats (trace (run os_child 15 at_start))) <=
    clock (run os_child 15 at_start) + 5.
Proof.
  destruct (heartbeat_rate os_child (run os_child 15 at_start)) as [H _].
  - apply run_reachable, reach_start.
  - exact H.
Defined.






(** X7.  The original process does nothing but fork: when [fork] returns
    a positive pid, the only states of the process are its start and its
    end right after the [fork], with [EXIT_SUCCESS], no handler installed
    and nothing logged, whatever [setsid] and [chdir] answer in the
    child. *)
Theorem original_only_forks (os : os_results) (s : proc) :
  0 < fork_ret os -> reachable os s ->
  s = at_start \/
  s = mkProc L17_fork [EFork; EExit EXIT_SUCCESS] ∅ (Some EXIT_SUCCESS) 0.
Proof.
  intros Hpid Hreach.
  destruct (reachable_shape os s Hreach) as (k & es & Htr & Hend & Hclk & Hk & Hd & Hpass).
  destruct s as [p t d e c]. cbn [at_pc trace dispositions exit_status clock] in *.
  assert (Hp : p = L17_fork).
  { destruct p; cbn [passed] in Hpass; try reflexivity; try contradiction;
      try lia. }
  subst p. specialize (Hk eq_refl). subst k t d c.
  inversion Hend as [ | Hl Hos | Hl Hos | Hl Hos | Hl Hos | signum Hh]; subst;
    try discriminate; try lia.
  - left. reflexivity.
  - right. reflexivity.
Qed.

Lemma original_only_forks_witness :
  run os_parent 5 at_start = at_start \/
  run os_parent 5 at_start =
    mkProc L17_fork [EFork; EExit EXIT_SUCCESS] ∅ (Some EXIT_SUCCESS) 0.
Proof.
  apply (original_only_forks os_parent).
  - simpl. lia.
  - apply run_reachable, reach_start.
Defined.

(** The child at the top of its loop after [k] cycles. *)
Lemma run_child_loop os k :
  fork_ret os = 0 -> 0 <= setsid_ret os -> 0 <= chdir_ret os ->
  run os (10 + 2 * k) at_start =
    mkProc L55_syslog_running (startup_calls ++ cycles k)
           (<[SIGINT := Hsignal_handler]> (<[SIGTERM := Hsignal_handler]> ∅))
           None (5 * Z.of_nat k).
Proof.
  intros Hf Hs Hc. unfold at_start.
  rewrite run_add, run_child_10_from, run_cycles by assumption.
  reflexivity.
Qed.

(** X8.  The daemon can be stopped at any point of its loop: when the
    daemonization calls succeed, for every number [k] of cycles, for
    [SIGTERM] and for [SIGINT], there is an execution in which the daemon
    has completed [k] cycles, stands before the heartbeat or before the
    [sleep], and is ended there by the handler with status 0, its last
    three calls being the handler's. *)
Theorem shutdown_at_any_cycle (os : os_results) (k : nat) (signum : Z) (l : pc) :
  fork_ret os = 0 -> 0 <= setsid_ret os -> 0 <= chdir_ret os ->
  signum = SIGTERM \/ signum = SIGINT ->
  l = L55_syslog_running \/ l = L57_sleep ->
  reachable os
    (mkProc l
       ((startup_calls ++ cycles k ++ pending l) ++ shutdown_calls signum)
       (<[SIGINT := Hsignal_handler]> (<[SIGTERM := Hsignal_handler]> ∅))
       (Some 0) (5 * Z.of_nat k)).
Proof.
  intros Hf Hs Hc Hsig Hl.
  set (d := <[SIGINT := Hsignal_handler]> (<[SIGTERM := Hsignal_handler]> ∅)
            : gmap Z sighandler).
  assert (Hd : d !! signum = Some Hsignal_handler).
  { unfold d. destruct Hsig as [-> | ->].
    - rewrite lookup_insert_ne by discriminate. apply lookup_insert_eq.
    - apply lookup_insert_eq. }
  assert (H55 : reachable os
            (mkProc L55_syslog_running (startup_calls ++ cycles k) d None
                    (5 * Z.of_nat k))).
  { unfold d. rewrite <- (run_child_loop os k Hf Hs Hc).
    apply run_reachable, reach_start. }
  assert (Hrun : reachable os
            (mkProc l (startup_calls ++ cycles k ++ pending l) d None
                    (5 * Z.of_nat k))).
  { destruct Hl as [-> | ->]; cbn [pending].
    - now rewrite app_nil_r.
    - eapply reach_step; [exact H55|].
      replace (mkProc L57_sleep _ d None _)
        with (main_step os (mkProc L55_syslog_running (startup_calls ++ cycles k)
                                   d None (5 * Z.of_nat k))).
      + now apply step_main.
      + main_step_eval. now rewrite <- app_assoc. }
  eapply reach_step; [exact Hrun|].
  replace (mkProc l _ d (Some 0) _)
    with (run_handler Hsignal_handler signum
            (mkProc l (startup_calls ++ cycles k ++ pending l) d None
                    (5 * Z.of_nat k))).
  - now apply step_deliver.
  - cbn [run_handler]. rewrite (signal_handler_term _ _ Hsig).
    unfold exit, emit, shutdown_calls.
    cbn [at_pc trace dispositions exit_status clock].
    now rewrite <- !app_assoc.
Qed.

Lemma shutdown_at_any_cycle_witness :
  reachable os_child
    (mkProc L57_sleep
       ((startup_calls ++ cycles 2 ++ pending L57_sleep) ++ shutdown_calls SIGINT)
       (<[SIGINT := Hsignal_handler]> (<[SIGTERM := Hsignal_handler]> ∅))
       (Some 0) (5 * Z.of_nat 2)).
Proof.
  apply (shutdown_at_any_cycle os_child 2 SIGINT L57_sleep).
  - reflexivity.
  - simpl. lia.
  - simpl. lia.
  - right. reflexivity.
  - right. reflexivity.
Defined.

(** ** The daemon under the kernel *)

Lemma reachable_kreachable os s : reachable os s -> kreachable os (mkK s Alive).
Proof.
  induction 1 as [|s l s' _ IH Hstep]; [apply kreach_start|].
  destruct Hstep as [s Hrun | s signum h Hrun Hh].
  - eapply kreach_step; [exact IH | now apply kstep_main].
  - eapply kreach_step; [exact IH|].
    replace (mkK (run_handler h signum s) Alive) with (deliver signum s).
    + now apply kstep_deliver.
    + unfold deliver. now rewrite Hh.
Qed.

Lemma shape_kshape os p : shape os p -> kshape os (mkK p Alive).
Proof.
  intros (k & es & Htr & Hend & Hclk & Hk & Hd & Hpass).
  exists k, es, 0. cbn [user fate_of].
  repeat split; try assumption; [now apply kend_atomic | lia].
Qed.

Lemma kshape_running os p :
  exit_status p = None -> kshape os (mkK p Alive) -> shape os p.
Proof.
  intros Hrun (k & es & e & Htr & Hend & Hclk & Hk & Hd & Hpass).
  cbn [user fate_of] in *. rewrite Hrun in Hend.
  inversion Hend as [st es' He | | | | | ]; subst.
  exists k, es. rewrite Hrun. repeat split; try assumption. lia.
Qed.

(** The parts of the shape of a running process. *)
Lemma shape_running os p :
  exit_status p = None -> shape os p ->
  exists k : nat,
    trace p = expected (at_pc p) k /\ clock p = 5 * Z.of_nat k /\
    (in_loop (at_pc p) = false -> k = 0%nat) /\
    dispositions p = disp_at (at_pc p) /\ passed os (at_pc p).
Proof.
  intros Hrun (k & es & Htr & Hend & Hclk & Hk & Hd & Hpass).
  rewrite Hrun in Hend. apply ending_running in Hend. subst es.
  rewrite app_nil_r in Htr. now exists k.
Qed.

Lemma by_default_kshape os signum p p' es elapsed k :
  exit_status p = None -> shape os p ->
  at_pc p' = at_pc p -> dispositions p' = dispositions p ->
  exit_status p' = None ->
  trace p' = expected (at_pc p) k ++ es ->
  clock p' = 5 * Z.of_nat k + elapsed ->
  (in_loop (at_pc p) = false -> k = 0%nat) ->
  dispositions p !! signum = None ->
  (default_action signum = Terminate ->
   kending os (at_pc p) None (Killed signum) es elapsed) ->
  kshape os (by_default signum p p').
Proof.
  intros Hrun Hshape Hpc Hdisp Hrun' Htr Hclk Hk Hnone Hend.
  unfold by_default. destruct (default_action signum) eqn:Hact;
    try now apply shape_kshape.
  destruct (shape_running os p Hrun Hshape) as (_ & _ & _ & _ & Hd & Hpass).
  exists k, es, elapsed. cbn [user fate_of]. rewrite Hpc, Hdisp, Hrun'.
  repeat split; try assumption. now apply Hend.
Qed.

Lemma deliver_kshape os signum p :
  exit_status p = None -> shape os p -> kshape os (deliver signum p).
Proof.
  intros Hrun Hshape. unfold deliver.
  destruct (dispositions p !! signum) as [h|] eqn:Hh.
  - apply shape_kshape. now apply deliver_shape.
  - destruct (shape_running os p Hrun Hshape) as (k & Htr & Hclk & Hk & Hd & _).
    apply (by_default_kshape os signum p p [] 0 k); try assumption; try reflexivity.
    + now rewrite app_nil_r.
    + lia.
    + intros Hact. apply kend_killed; [now rewrite <- Hd | exact Hact].
Qed.

Lemma deliver_in_sleep_kshape os signum elapsed p :
  exit_status p = None -> at_pc p = L57_sleep -> 0 <= elapsed <= 5 ->
  shape os p -> kshape os (deliver_in_sleep signum elapsed p).
Proof.
  intros Hrun Hpc He Hshape. unfold deliver_in_sleep.
  destruct (shape_running os p Hrun Hshape) as (k & Htr & Hclk & Hk & Hd & Hpass).
  destruct (dispositions p !! signum) as [h|] eqn:Hh.
  - destruct h. cbn [run_handler].
    assert (Hsig : signum = SIGTERM \/ signum = SIGINT).
    { rewrite Hd in Hh. now destruct (disp_at_handled _ _ _ Hh). }
    rewrite (signal_handler_term _ _ Hsig).
    unfold exit, emit, sleeping. cbn [at_pc trace dispositions exit_status clock].
    exists k, (ESleep 5 :: shutdown_calls signum), elapsed.
    cbn [user fate_of at_pc trace dispositions exit_status clock].
    repeat split; try assumption.
    + rewrite Htr. unfold shutdown_calls. rewrite <- !app_assoc. reflexivity.
    + now apply kend_exit_in_sleep.
    + lia.
  - apply (by_default_kshape os signum p (sleeping elapsed p) [ESleep 5] elapsed k);
      try assumption; try reflexivity.
    + unfold sleeping. cbn [trace]. now rewrite Htr.
    + unfold sleeping. cbn [clock]. lia.
    + intros Hact. apply kend_killed_in_sleep; try assumption. now rewrite <- Hd.
Qed.

Lemma deliver_in_syslog_kshape os signum p kp :
  exit_status p = None -> deliver_in_syslog signum p = Some kp ->
  shape os p -> kshape os kp.
Proof.
  intros Hrun Hdel Hshape. unfold deliver_in_syslog in Hdel.
  destruct (syslog_record (at_pc p)) as [e|] eqn:Hrec; [|discriminate].
  injection Hdel as <-.
  destruct (shape_running os p Hrun Hshape) as (k & Htr & Hclk & Hk & Hd & Hpass).
  destruct (dispositions p !! signum) as [h|] eqn:Hh.
  - destruct h. unfold handler_in_syslog.
    destruct ((signum =? SIGTERM) || (signum =? SIGINT)) eqn:Hsig;
      [|now apply shape_kshape].
    exists k, [e], 0. unfold emit.
    cbn [user fate_of at_pc trace dispositions exit_status clock].
    rewrite Hrun. repeat split; try assumption.
    + now rewrite Htr.
    + apply (kend_hung os (at_pc p) signum e Hrec); [now rewrite <- Hd|].
      rewrite Hd in Hh. now destruct (disp_at_handled _ _ _ Hh).
    + lia.
  - apply (by_default_kshape os signum p (emit e p) [e] 0 k);
      try assumption; try reflexivity.
    + unfold emit. cbn [trace]. now rewrite Htr.
    + unfold emit. cbn [clock]. lia.
    + intros Hact. apply kend_killed_in_syslog; try assumption. now rewrite <- Hd.
Qed.

Lemma kstep_kshape os ks l ks' : kstep os ks l ks' -> kshape os ks -> kshape os ks'.
Proof.
  intros Hstep Hks.
  destruct Hstep as [p Hrun | p signum Hrun | p signum e Hrun Hpc He
                    | p signum kp Hrun Hdel];
    pose proof (kshape_running os p Hrun Hks) as Hshape.
  - apply shape_kshape. now apply main_step_shape.
  - now apply deliver_kshape.
  - now apply deliver_in_sleep_kshape.
  - now apply (deliver_in_syslog_kshape os signum p).
Qed.

Lemma kreachable_kshape os ks : kreachable os ks -> kshape os ks.
Proof.
  induction 1 as [|ks l ks' _ IH Hstep].
  - apply shape_kshape, at_start_shape.
  - eapply kstep_kshape; eauto.
Qed.

Lemma by_default_cases signum p p' :
  exit_status p = None -> exit_status p' = None ->
  running (by_default signum p p') \/
  (fate_of (by_default signum p p') = Killed signum /\
   exit_status (user (by_default signum p p')) = None /\
   default_action signum = Terminate).
Proof.
  intros Hrun Hrun'. unfold by_default.
  destruct (default_action signum); [right | left | left | left]; now repeat split.
Qed.

Lemma default_action_termination signum :
  signum = SIGTERM \/ signum = SIGINT -> default_action signum = Terminate.
Proof. intros [-> | ->]; reflexivity. Qed.

(** C4.  Not every delivery of [SIGTERM] or [SIGINT] to the daemonized
    process ends it with status 0.  From line 46 until the first [signal]
    call has been made (and, for [SIGINT], until the second has been made)
    no handler is installed: the kernel ends the running process on the
    signal, and the process makes no call, so it does not log, does not
    close the log and does not call [exit].  And a signal that arrives
    while [main] is inside the [syslog] of the heartbeat enters a handler
    whose own [syslog] waits for ever: the process hangs without having
    called [exit]. *)
Theorem C4_signal_not_handled (os : os_results) (p : proc) (signum : Z) :
  kreachable os (mkK p Alive) -> exit_status p = None ->
  signum = SIGTERM \/ signum = SIGINT ->
  (((6 <= stmt_index (at_pc p) <= 8)%nat \/
    (at_pc p = L51_signal_SIGINT /\ signum = SIGINT)) ->
   kstep os (mkK p Alive) (Kdeliver signum) (mkK p (Killed signum))) /\
  (at_pc p = L55_syslog_running ->
   kstep os (mkK p Alive) (Kdeliver_in_syslog signum)
     (mkK (emit (ESyslog LOG_INFO "Daemon is running..." []) p) Hung)).
Proof.
  intros Hreach Hrun Hsig.
  pose proof (kshape_running os p Hrun (kreachable_kshape _ _ Hreach)) as Hshape.
  destruct (shape_running os p Hrun Hshape) as (k & _ & _ & _ & Hd & _).
  split.
  - intros Hpc.
    assert (Hnone : dispositions p !! signum = None).
    { rewrite Hd. destruct Hpc as [Hidx | [-> ->]].
      - destruct (at_pc p); cbn [stmt_index] in Hidx; try lia; apply lookup_empty.
      - unfold disp_at. rewrite lookup_insert_ne by discriminate. apply lookup_empty. }
    replace (mkK p (Killed signum)) with (deliver signum p).
    + now apply kstep_deliver.
    + unfold deliver, by_default.
      now rewrite Hnone, (default_action_termination _ Hsig).
  - intros Hpc.
    apply kstep_in_syslog; [exact Hrun|].
    unfold deliver_in_syslog. rewrite Hpc. cbn [syslog_record].
    assert (Hsome : dispositions p !! signum = Some Hsignal_handler).
    { rewrite Hd, Hpc. unfold disp_at. destruct Hsig as [-> | ->].
      - rewrite lookup_insert_ne by discriminate. apply lookup_insert_eq.
      - apply lookup_insert_eq. }
    rewrite Hsome. unfold handler_in_syslog.
    now destruct Hsig as [-> | ->].
Qed.

Lemma before_signals_pc : at_pc before_signals = L50_signal_SIGTERM.
Proof. vm_compute. reflexivity. Qed.

Lemma before_signals_running : exit_status before_signals = None.
Proof. vm_compute. reflexivity. Qed.

Lemma before_signals_kreachable : kreachable os_child (mkK before_signals Alive).
Proof.
  apply reachable_kreachable.
  exact (run_reachable os_child 8 at_start (reach_start os_child)).
Qed.

Lemma before_signals_index : (6 <= stmt_index (at_pc before_signals) <= 8)%nat.
Proof. rewrite before_signals_pc. cbn [stmt_index]. lia. Qed.

Lemma C4_signal_not_handled_witness :
  at_pc before_signals = L50_signal_SIGTERM /\
  exit_status before_signals = None /\
  kstep os_child (mkK before_signals Alive) (Kdeliver SIGTERM)
        (mkK before_signals (Killed SIGTERM)).
Proof.
  exact (conj before_signals_pc
           (conj before_signals_running
              (proj1 (C4_signal_not_handled os_child before_signals SIGTERM
                        before_signals_kreachable before_signals_running
                        (or_introl eq_refl))
                     (or_introl before_signals_index)))).
Defined.

Lemma detached_example_kreachable : kreachable os_child (mkK detached_example Alive).
Proof.
  apply reachable_kreachable.
  exact (run_reachable os_child 10 at_start (reach_start os_child)).
Qed.

Lemma detached_example_detached : process_state detached_example = Detached.
Proof. vm_compute. reflexivity. Qed.

Lemma detached_example_running : exit_status detached_example = None.
Proof. vm_compute. reflexivity. Qed.

Lemma detached_example_sighup :
  fate_of (deliver SIGHUP detached_example) = Killed SIGHUP.
Proof. vm_compute. reflexivity. Qed.

(** C10 as stated does not hold: the Detached daemon is also ended
    without any [exit] call.  [SIGHUP] has no handler, and its delivery
    to the daemon in its loop makes the kernel end the process. *)
Lemma C10_counterexample : ~ ends_only_by_exit os_child.
Proof.
  intros H.
  exact (H detached_example (Kdeliver SIGHUP) (deliver SIGHUP detached_example)
           SIGHUP detached_example_kreachable detached_example_detached
           (kstep_deliver os_child detached_example SIGHUP
              detached_example_running)
           detached_example_sighup).
Qed.

(** A statement of the daemonized [main] leaves it daemonized and
    running. *)
Lemma main_step_daemonized os p :
  daemonized (at_pc p) = true -> passed os (at_pc p) -> exit_status p = None ->
  daemonized (at_pc (main_step os p)) = true /\
  passed os (at_pc (main_step os p)) /\
  exit_status (main_step os p) = None.
Proof.
  intros Hd Hpass Hrun. unfold main_step.
  destruct p as [l t d e c]. cbn [at_pc exit_status] in *. subst e.
  destruct l; try discriminate; cbn [passed] in Hpass; try contradiction;
    main_step_eval; now repeat split.
Qed.

Lemma run_daemonized os n p :
  daemonized (at_pc p) = true -> passed os (at_pc p) -> exit_status p = None ->
  daemonized (at_pc (run os n p)) = true /\ exit_status (run os n p) = None.
Proof.
  revert p. induction n as [|n IH]; intros p Hd Hpass Hrun; [now split|].
  rewrite run_S by exact Hrun.
  destruct (main_step_daemonized os p Hd Hpass Hrun) as (Hd' & Hpass' & Hrun').
  now apply IH.
Qed.

Lemma handler_exit_trace signum p :
  signum = SIGTERM \/ signum = SIGINT ->
  exit_status (signal_handler signum p) = Some 0 /\
  trace (signal_handler signum p) = trace p ++ shutdown_calls signum.
Proof.
  intros Hsig. rewrite (signal_handler_term _ _ Hsig). split; [reflexivity|].
  unfold exit, emit, shutdown_calls. cbn [trace]. now rewrite <- !app_assoc.
Qed.

(** C10, amended.  The loop of [main] has no way out: in no execution,
    whatever the kernel delivers and when, is [main] ever at the
    [closelog] or the [return 0] behind the loop; however many statements
    a process executes that is Detached, or daemonized (at line 46 or
    later), it is still so and still running.  A step of a daemonized
    process leaves it running, or hung in the handler entered inside
    [syslog], or ends it in one of two ways only: by the [exit(0)] of the
    handler of [SIGTERM] or [SIGINT], which is the only [exit] the process
    can call, or by the kernel, on a signal that has no handler installed
    and whose default action terminates the process. *)
Theorem C10_loop_never_exits (os : os_results) :
  (forall ks, kreachable os ks ->
     at_pc (user ks) <> L60_closelog /\ at_pc (user ks) <> L61_return) /\
  (forall s n, process_state s = Detached ->
     process_state (run os n s) = Detached) /\
  (forall p n,
     kreachable os (mkK p Alive) ->
     daemonized (at_pc p) = true -> exit_status p = None ->
     daemonized (at_pc (run os n p)) = true /\ exit_status (run os n p) = None) /\
  (forall p l ks',
     kreachable os (mkK p Alive) -> daemonized (at_pc p) = true ->
     kstep os (mkK p Alive) l ks' ->
     running ks' \/
     (fate_of ks' = Hung /\ exit_status (user ks') = None) \/
     (fate_of ks' = Alive /\ exit_status (user ks') = Some 0 /\
      exists signum t,
        (signum = SIGTERM \/ signum = SIGINT) /\
        dispositions p !! signum = Some Hsignal_handler /\
        trace (user ks') = t ++ shutdown_calls signum) \/
     (exists signum,
        fate_of ks' = Killed signum /\ exit_status (user ks') = None /\
        dispositions p !! signum = None /\ default_action signum = Terminate)).
Proof.
  split; [|split; [|split]].
  - intros ks Hreach.
    destruct (kreachable_kshape os ks Hreach) as (k & es & e & _ & _ & _ & _ & _ & Hpass).
    split; intros Hpc; rewrite Hpc in Hpass; exact Hpass.
  - intros s n. apply run_detached.
  - intros p n Hreach Hd Hrun.
    destruct (kreachable_kshape os _ Hreach) as (k & es & e & _ & _ & _ & _ & _ & Hpass).
    now apply run_daemonized.
  - intros p l ks' Hreach Hd Hstep.
    destruct (kreachable_kshape os _ Hreach) as (k & es & e & _ & _ & _ & _ & _ & Hpass).
    cbn [user] in Hpass.
    inversion Hstep as [p0 Hrun | p0 signum Hrun | p0 signum el Hrun Hpc Hel
                       | p0 signum kp Hrun Hdel]; subst.
    + left. destruct (main_step_daemonized os p Hd Hpass Hrun) as (_ & _ & Hrun').
      now split.
    + unfold deliver. destruct (dispositions p !! signum) as [h|] eqn:Hh.
      * destruct h. cbn [run_handler].
        destruct (signal_handler_cases signum p) as [Hsig | ->];
          [|left; now split].
        destruct (handler_exit_trace signum p Hsig) as [Hst Htr].
        right; right; left. cbn [user fate_of].
        repeat split; try assumption. now exists signum, (trace p).
      * destruct (by_default_cases signum p p Hrun Hrun) as [H | (Hf & Hs & Ha)];
          [now left|].
        right; right; right. now exists signum.
    + unfold deliver_in_sleep.
      destruct (dispositions p !! signum) as [h|] eqn:Hh.
      * destruct h. cbn [run_handler].
        destruct (signal_handler_cases signum (sleeping el p)) as [Hsig | ->].
        -- destruct (handler_exit_trace signum (sleeping el p) Hsig) as [Hst Htr].
           rewrite Hst. right; right; left. cbn [user fate_of].
           repeat split; try assumption.
           now exists signum, (trace (sleeping el p)).
        -- unfold sleeping. cbn [exit_status]. rewrite Hrun. left. now split.
      * destruct (by_default_cases signum p (sleeping el p) Hrun Hrun)
          as [H | (Hf & Hs & Ha)]; [now left|].
        right; right; right. now exists signum.
    + unfold deliver_in_syslog in Hdel.
      destruct (syslog_record (at_pc p)) as [ev|]; [|discriminate].
      injection Hdel as <-.
      destruct (dispositions p !! signum) as [h|] eqn:Hh.
      * destruct h. unfold handler_in_syslog.
        destruct ((signum =? SIGTERM) || (signum =? SIGINT));
          [right; left | left]; now split.
      * destruct (by_default_cases signum p (emit ev p) Hrun Hrun)
          as [H | (Hf & Hs & Ha)]; [now left|].
        right; right; right. now exists signum.
Qed.

Lemma C10_loop_never_exits_witness :
  process_state (run os_child 1000 detached_example) = Detached /\
  (at_pc (user (mkK detached_example Alive)) <> L60_closelog /\
   at_pc (user (mkK detached_example Alive)) <> L61_return).
Proof.
  exact (conj (proj1 (proj2 (C10_loop_never_exits os_child))
                 detached_example 1000%nat detached_example_detached)
              (proj1 (C10_loop_never_exits os_child)
                 (mkK detached_example Alive) detached_example_kreachable)).
Defined.





Example interrupted_example_state :
  exit_status (user interrupted_example) = Some 0 /\
  clock (user interrupted_example) = 1 /\
  trace (user interrupted_example) =
    startup_calls ++
    [ESyslog LOG_INFO "Daemon is running..." []; ESleep 5] ++ shutdown_calls SIGTERM.
Proof. vm_compute. repeat split. Qed.
